(** * ciel: remote version discovery and asset resolution ([ciel/source.py])

    A shallow embedding of [GitHubReleasesDataSource] and of the data-source
    registry, with the properties of the release feed processing: pagination,
    draft and family filtering, commit-date extraction, ordering, the
    not-found error, asset filtering and the start-up selection of the
    default data source.

    Python strings are modelled as [string] (sequences of 8-bit characters),
    Python integers as [Z], exceptions as an error monad, the HTTP session as
    explicit state passing, and the [while] loop of the pagination with
    fuel. *)

From Stdlib Require Import String Ascii List ZArith Lia Bool Arith.
From Stdlib Require Import Sorting.Sorted Sorting.Permutation.
From Stdlib Require Import DecimalString.
Import ListNotations.

Local Open Scope list_scope.
Local Open Scope string_scope.

(* ===================================================================== *)
(** ** Exceptions and results *)

(** The exceptions that reach the caller of the data source:
    [ValueError] and [TypeError] (built-in), the two failure kinds of the
    session collaborator that the commands handle,
    [httpx.HTTPStatusError] and [httpx.NetworkError] (each with its
    subclasses), and [OtherError] for an exception of any other class
    ([KeyError], [httpx.ReadTimeout], ...), with the name of the class and
    [str] of the exception. *)
Inductive exn : Type :=
| ValueError (msg : string)
| HTTPStatusError (status : Z)
| NetworkError
| TypeError (msg : string)
| OtherError (cls : string) (msg : string).

Inductive Result (A : Type) : Type :=
| Ok (a : A)
| Raise (e : exn).
Arguments Ok {A} a.
Arguments Raise {A} e.

Definition bind {A B : Type} (r : Result A) (k : A -> Result B) : Result B :=
  match r with
  | Ok a => k a
  | Raise e => Raise e
  end.

Notation "x <- c ;; k" := (bind c (fun x => k))
  (at level 61, c at next level, right associativity).

(* ===================================================================== *)
(** ** Python string primitives used by [source.py] *)

Module Py.

(** [sep in s] for a one-character separator. *)
Fixpoint contains (sep : ascii) (s : string) : bool :=
  match s with
  | EmptyString => false
  | String c s' => Ascii.eqb c sep || contains sep s'
  end.

(** [s.rsplit(sep, maxsplit=1)] for a one-character separator: the list
    [[s]] when [sep] does not occur, and [[before; after]] around the
    last occurrence otherwise. *)
Fixpoint rsplit1 (sep : ascii) (s : string) : list string :=
  match s with
  | EmptyString => [EmptyString]
  | String c s' =>
      match rsplit1 sep s' with
      | [before; after] => [String c before; after]
      | _ => if Ascii.eqb c sep then [EmptyString; s'] else [String c s']
      end
  end.

(** [s.split(sep, maxsplit=1)] for a one-character separator: the list
    [[s]] when [sep] does not occur, and [[before; after]] around the
    first occurrence otherwise. *)
Fixpoint split1 (sep : ascii) (s : string) : list string :=
  match s with
  | EmptyString => [EmptyString]
  | String c s' =>
      if Ascii.eqb c sep then [EmptyString; s']
      else match split1 sep s' with
           | [before; after] => [String c before; after]
           | _ => [String c s']
           end
  end.

(** [s.endswith(suffix)]. *)
Fixpoint endswith (s suffix : string) : bool :=
  String.eqb s suffix
  || match s with
     | EmptyString => false
     | String _ s' => endswith s' suffix
     end.

(** [s[:-n]] for a positive [n]: all but the last [n] characters, and the
    empty string when [s] has fewer than [n] characters. *)
Definition slice_to_minus (n : nat) (s : string) : string :=
  substring 0 (String.length s - n) s.

(** [s.startswith(p)], returning the rest of [s] after [p]. *)
Fixpoint strip_prefix (p s : string) : option string :=
  match p, s with
  | EmptyString, _ => Some s
  | String a p', String b s' =>
      if Ascii.eqb a b then strip_prefix p' s' else None
  | String _ _, EmptyString => None
  end.

(** The longest prefix of [s] whose characters all satisfy [f], as a
    greedy [[...]*] of a regular expression consumes it. *)
Fixpoint take_while (f : ascii -> bool) (s : string) : string :=
  match s with
  | EmptyString => EmptyString
  | String c s' => if f c then String c (take_while f s') else EmptyString
  end.

End Py.

(** The character class [[\d\-\:TZ]] of [commit_rx] (on 8-bit characters
  [\d] is [0-9]). *)
Definition commit_rx_class (c : ascii) : bool :=
let n := nat_of_ascii c in
(Nat.leb 48 n && Nat.leb n 57)
|| Ascii.eqb c "-"%char || Ascii.eqb c ":"%char
|| Ascii.eqb c "T"%char || Ascii.eqb c "Z"%char.

(** [commit_rx.search(body)] for
  [commit_rx = re.compile(r"released on ([\d\-\:TZ]+)")]: [None] when the
  pattern matches nowhere, otherwise group 1 of the leftmost match, the
  longest non-empty run of class characters after ["released on "]. *)
Fixpoint commit_rx_search (body : string) : option string :=
match body with
| EmptyString => None
| String _ body' =>
    match Py.strip_prefix "released on " body with
    | Some rest =>
        match Py.take_while commit_rx_class rest with
        | EmptyString => commit_rx_search body'
        | group1 => Some group1
        end
    | None => commit_rx_search body'
    end
end.

(** Python's [list.sort(reverse=True)] with the elements' [__lt__] as [lt]:
  the list is reversed, sorted by a stable sort that only asks [lt], and
  reversed again, so that equal elements keep their order.  The stable
  sort is written as an insertion sort; it gives the list that
  [list.sort] gives when [lt] is a strict weak order (asymmetric, with a
  transitive complement), for which the result of a stable sort is unique.
  For another [lt] Python does not specify the result, and the properties
  below that depend on the order assume a strict weak order. *)
Section ListSort.
Context {A : Type} (lt : A -> A -> bool).

Fixpoint insert_stable (x : A) (l : list A) : list A :=
  match l with
  | [] => [x]
  | y :: l' => if lt y x then y :: insert_stable x l' else x :: l
  end.

Fixpoint stable_sort (l : list A) : list A :=
  match l with
  | [] => []
  | x :: l' => insert_stable x (stable_sort l')
  end.

Definition sort_reverse (l : list A) : list A :=
  rev (stable_sort (rev l)).
End ListSort.

(* ===================================================================== *)
(** ** Timestamps *)

(** Python's naive [datetime.datetime], to the second.  Two values compare
    chronologically, which is the lexicographic order of their fields. *)
Module datetime.

Record t : Type := mk {
  year : Z; month : Z; day : Z;
  hour : Z; minute : Z; second : Z
}.

Definition fields (d : t) : list Z :=
  [year d; month d; day d; hour d; minute d; second d].

Fixpoint lex_compare (a b : list Z) : comparison :=
  match a, b with
  | [], [] => Eq
  | [], _ :: _ => Lt
  | _ :: _, [] => Gt
  | x :: a', y :: b' =>
      match (x ?= y)%Z with
      | Eq => lex_compare a' b'
      | c => c
      end
  end.

Definition compare (a b : t) : comparison :=
  lex_compare (fields a) (fields b).

(** [a < b] *)
Definition ltb (a b : t) : bool :=
  match compare a b with Lt => true | _ => false end.

(** [a <= b] *)
Definition leb (a b : t) : bool := negb (ltb b a).

End datetime.

(* ===================================================================== *)
(** ** Data model *)

(** One asset object of a release of the feed, with the keys that
    [get_downloads_for_version] reads. *)
Module AssetJson.
Record t : Type := mk {
  name : string;
  browser_download_url : string
}.
End AssetJson.

(** One release object of the feed, with the keys that the data source
    reads.  The feed is taken to be well typed: every key is present, with a
    JSON string, boolean or array as its value; the value of [body] may also
    be JSON [null] (a release without a description), which is [None]
    here. *)
Module Release.
Record t : Type := mk {
  draft : bool;
  tag_name : string;
  published_at : string;
  body : option string;
  prerelease : bool;
  assets : list AssetJson.t
}.
End Release.

(** [ciel.common.Version], as far as the data source builds it. *)
Module Version.
Record t : Type := mk {
  name : string;
  pdk : string;
  commit_date : option datetime.t;
  upload_date : datetime.t;
  prerelease : bool
}.
End Version.

(** The dataclass [Asset]. *)
Module Asset.
Record t : Type := mk {
  content : string;
  filename : string;
  url : string
}.
End Asset.

(** The [params] of a request to the [/releases] endpoint. *)
Record Params : Type := mkParams { page : Z; per_page : Z }.

(* ===================================================================== *)
(** ** GitHubReleasesDataSource *)

Section GitHubReleasesDataSource.

(** The collaborators of [ciel/github.py] and [ciel/common.py] are taken as
    parameters: the repository description [RepoInfo] with its [id], the
    session with its [api] method (one parameter per endpoint the data source
    calls, the session being threaded as a state), the timestamp parser
    [date_from_iso8601], and [Version.__lt__]. *)
Variable RepoInfo : Type.
Variable RepoInfo_id : RepoInfo -> string.
Variable Session : Type.
Variable api_releases :
  Session -> RepoInfo -> Params -> Session * Result (list Release.t).
Variable api_release_by_tag :
  Session -> RepoInfo -> string -> Session * Result Release.t.
Variable date_from_iso8601 : string -> Result datetime.t.
Variable Version_lt : Version.t -> Version.t -> bool.

(** The instance state that the methods read: [self.repo]; [self.session]
    is the threaded [Session]. *)
Record GitHubReleasesDataSource : Type := mkGitHub { repo : RepoInfo }.

(** The [while len(last) == 100] loop of [get_available_versions]; [None]
    when the fuel runs out before the loop ends.  As in the source, the
    counter [page] is incremented and the request carries [{"page": 1,
    "per_page": 100}] (line 70).  [releases] starts as an
    alias of the first page and is extended in place; [last] is rebound to a
    fresh list before each extension, so the alias is never observed. *)
Fixpoint fetch_more (fuel : nat) (self : GitHubReleasesDataSource)
    (s : Session) (page : Z) (last releases : list Release.t)
  : option (Session * Result (list Release.t)) :=
  if Nat.eqb (List.length last) 100 then
    match fuel with
    | O => None
    | S fuel' =>
        let page := (page + 1)%Z in
        match api_releases s (repo self) {| page := 1; per_page := 100 |} with
        | (s', Raise e) => Some (s', Raise e)
        | (s', Ok last') =>
            fetch_more fuel' self s' page last' (releases ++ last')
        end
    end
  else Some (s, Ok releases).

(** Lines 56-72: the first request and the loop. *)
Definition fetch_releases (fuel : nat) (self : GitHubReleasesDataSource)
    (s : Session) : option (Session * Result (list Release.t)) :=
  let page := 1%Z in
  match api_releases s (repo self) {| page := 1; per_page := 100 |} with
  | (s', Raise e) => Some (s', Raise e)
  | (s', Ok last) => fetch_more fuel self s' page last last
  end.

(** [family, hash = tag_name.rsplit("-", maxsplit=1)]: unpacking a list
    that has not two elements raises [ValueError]. *)
Definition unpack2 (l : list string) : Result (string * string) :=
  match l with
  | [a; b] => Ok (a, b)
  | [] => Raise (ValueError "not enough values to unpack (expected 2, got 0)")
  | [_] => Raise (ValueError "not enough values to unpack (expected 2, got 1)")
  | _ => Raise (ValueError "too many values to unpack (expected 2)")
  end.

(** [commit_rx.search(release["body"])]: the search of a pattern in
    [None] raises [TypeError]. *)
Definition commit_rx_search_value (body : option string)
  : Result (option string) :=
  match body with
  | Some text => Ok (commit_rx_search text)
  | None =>
      Raise (TypeError "expected string or bytes-like object, got 'NoneType'")
  end.

(** Lines 86-90: [commit_date] stays [None] unless [commit_rx] matches, and
    is then the parsed group 1. *)
Definition extract_commit_date (body : option string)
  : Result (option datetime.t) :=
  let commit_date := None in
  commit_date_match <- commit_rx_search_value body ;;
  match commit_date_match with
  | Some group1 => d <- date_from_iso8601 group1 ;; Ok (Some d)
  | None => Ok commit_date
  end.

(** The body of the [for release in releases] loop: [Ok None] for
    [continue], [Ok (Some v)] when [v] is appended to [versions]. *)
Definition visit_release (pdk : string) (release : Release.t)
  : Result (option Version.t) :=
  if Release.draft release then Ok None
  else
    fh <- unpack2 (Py.rsplit1 "-" (Release.tag_name release)) ;;
    let (family, hash) := fh in
    if negb (String.eqb pdk family) then Ok None
    else
      upload_date <- date_from_iso8601 (Release.published_at release) ;;
      commit_date <- extract_commit_date (Release.body release) ;;
      Ok (Some {| Version.name := hash;
                  Version.pdk := family;
                  Version.commit_date := commit_date;
                  Version.upload_date := upload_date;
                  Version.prerelease := Release.prerelease release |}).

(** The [for] loop, with [versions] as the accumulator. *)
Fixpoint collect_versions (pdk : string) (releases : list Release.t)
    (versions : list Version.t) : Result (list Version.t) :=
  match releases with
  | [] => Ok versions
  | release :: releases' =>
      match visit_release pdk release with
      | Raise e => Raise e
      | Ok None => collect_versions pdk releases' versions
      | Ok (Some remote_version) =>
          collect_versions pdk releases' (versions ++ [remote_version])
      end
  end.

Definition not_found_message (pdk : string) (self : GitHubReleasesDataSource)
  : string :=
  "No versions found for '" ++ pdk ++ "' on github.com/"
    ++ RepoInfo_id (repo self).

(** Lines 101-106: sort, then fail on an empty list. *)
Definition finish_versions (pdk : string) (self : GitHubReleasesDataSource)
    (versions : list Version.t) : Result (list Version.t) :=
  let versions := sort_reverse Version_lt versions in
  if Nat.eqb (List.length versions) 0
  then Raise (ValueError (not_found_message pdk self))
  else Ok versions.

(** Lines 74-106: what happens to the aggregated [releases]. *)
Definition process_releases (pdk : string) (self : GitHubReleasesDataSource)
    (releases : list Release.t) : Result (list Version.t) :=
  versions <- collect_versions pdk releases [] ;;
  finish_versions pdk self versions.

Definition get_available_versions (fuel : nat)
    (self : GitHubReleasesDataSource) (pdk : string) (s : Session)
  : option (Session * Result (list Version.t)) :=
  match fetch_releases fuel self s with
  | None => None
  | Some (s', Raise e) => Some (s', Raise e)
  | Some (s', Ok releases) => Some (s', process_releases pdk self releases)
  end.

(** The path of the request of [get_downloads_for_version]. *)
Definition release_tag_path (version : Version.t) : string :=
  "/releases/tags/" ++ Version.pdk version ++ "-" ++ Version.name version.

(** The [for asset in assets] loop of [get_downloads_for_version]. *)
Fixpoint zst_files_of (assets : list AssetJson.t) : list Asset.t :=
  match assets with
  | [] => []
  | asset :: assets' =>
      if Py.endswith (AssetJson.name asset) ".tar.zst"
      then
        let content := Py.slice_to_minus 8 (AssetJson.name asset) in
        Asset.mk content (AssetJson.name asset)
                 (AssetJson.browser_download_url asset)
          :: zst_files_of assets'
      else zst_files_of assets'
  end.

Definition get_downloads_for_version (self : GitHubReleasesDataSource)
    (version : Version.t) (s : Session) : Session * Result (list Asset.t) :=
  match api_release_by_tag s (repo self) (release_tag_path version) with
  | (s', Raise e) => (s', Raise e)
  | (s', Ok release) => (s', Ok (zst_files_of (Release.assets release)))
  end.

End GitHubReleasesDataSource.

Arguments mkGitHub {RepoInfo} repo.
Arguments repo {RepoInfo} _.
Arguments fetch_more {RepoInfo Session} api_releases fuel self s page last releases.
Arguments fetch_releases {RepoInfo Session} api_releases fuel self s.
Arguments not_found_message {RepoInfo} RepoInfo_id pdk self.
Arguments finish_versions {RepoInfo} RepoInfo_id Version_lt pdk self versions.
Arguments process_releases {RepoInfo} RepoInfo_id date_from_iso8601 Version_lt
  pdk self releases.
Arguments get_available_versions {RepoInfo} RepoInfo_id {Session} api_releases
  date_from_iso8601 Version_lt fuel self pdk s.
Arguments get_downloads_for_version {RepoInfo Session} api_release_by_tag
  self version s.

(* ===================================================================== *)
(** ** The data-source registry *)

Section Registry.

(** [RepoInfo.from_id] of [ciel/github.py], called by the constructor of
    [GitHubReleasesDataSource], is a parameter. *)
Variable RepoInfo : Type.
Variable RepoInfo_from_id : string -> Result RepoInfo.

(** The classes that [DataSource.factory] can hold, and their instances. *)
Inductive DataSourceClass : Type :=
| GitHubReleasesDataSourceClass.

Inductive DataSource : Type :=
| GitHubReleases (self : GitHubReleasesDataSource RepoInfo).

(** [cls(target)]; for the GitHub backend this is
    [GitHubReleasesDataSource.__init__]. *)
Definition construct (cls : DataSourceClass) (target : string)
  : Result DataSource :=
  match cls with
  | GitHubReleasesDataSourceClass =>
      repo <- RepoInfo_from_id target ;;
      Ok (GitHubReleases (mkGitHub repo))
  end.

(** [dict.get(key)] on a dictionary kept as an association list. *)
Fixpoint dict_get {V : Type} (d : list (string * V)) (key : string)
  : option V :=
  match d with
  | [] => None
  | (k, v) :: d' => if String.eqb k key then Some v else dict_get d' key
  end.

(** [DataSource.factory] after line 128. *)
Definition factory : list (string * DataSourceClass) :=
  [("github-releases", GitHubReleasesDataSourceClass)].

(** What importing the module leaves behind: the process has exited with a
    status after printing a line, an exception escaped, or
    [DataSource.default] is set. *)
Inductive Startup : Type :=
| Exited (printed : string) (status : Z)
| Uncaught (e : exn)
| DefaultSet (default : DataSource).

(** [__set_data_source_default], with the value of the environment variable
    [CIEL_DATA_SOURCE] ([None] when it is not set) as its argument. *)
Definition __set_data_source_default (CIEL_DATA_SOURCE : option string)
  : Startup :=
  let source_id :=
    match CIEL_DATA_SOURCE with
    | Some value => value
    | None => "github-releases:efabless/volare"
    end in
  let elements := Py.split1 ":" source_id in
  if negb (Nat.eqb (List.length elements) 2) then
    Exited
      "[CRITICAL] CIEL_DATA_SOURCE must be in the format '{class_id}:{argument}'."
      (-1)
  else
    match elements with
    | [cls_id; target] =>
        match dict_get factory cls_id with
        | None =>
            Exited
              ("[CRITICAL] CIEL_DATA_SOURCE defines unknown data source class '"
                 ++ cls_id ++ "'")
              (-1)
        | Some cls =>
            match construct cls target with
            | Ok default => DefaultSet default
            | Raise e => Uncaught e
            end
        end
    | _ => Uncaught (ValueError "too many values to unpack (expected 2)")
    end.

End Registry.

Arguments GitHubReleases {RepoInfo} self.
Arguments Exited {RepoInfo} printed status.
Arguments Uncaught {RepoInfo} e.
Arguments DefaultSet {RepoInfo} default.
Arguments __set_data_source_default {RepoInfo} RepoInfo_from_id CIEL_DATA_SOURCE.

(** The start-up is fatal when the process exits with a non-zero status. *)
Definition fatal {RepoInfo : Type} (o : Startup RepoInfo) : Prop :=
  exists printed status, o = Exited printed status /\ status <> 0%Z.

(* ===================================================================== *)
(** ** The collaborators, modelled *)

Module Common.

Definition digit (c : ascii) : option Z :=
  let n := nat_of_ascii c in
  if Nat.leb 48 n && Nat.leb n 57 then Some (Z.of_nat (n - 48)) else None.

Fixpoint number (cs : list ascii) (acc : Z) : option Z :=
  match cs with
  | [] => Some acc
  | c :: cs' =>
      match digit c with
      | Some d => number cs' (10 * acc + d)%Z
      | None => None
      end
  end.

Definition is_leap (y : Z) : bool :=
  ((y mod 4 =? 0) && negb (y mod 100 =? 0) || (y mod 400 =? 0))%Z.

Definition days_in_month (y m : Z) : Z :=
  if (m =? 2)%Z then (if is_leap y then 29 else 28)%Z
  else if ((m =? 4) || (m =? 6) || (m =? 9) || (m =? 11))%Z then 30%Z
  else 31%Z.

Definition valid (d : datetime.t) : bool :=
  ((1 <=? datetime.year d)
   && (1 <=? datetime.month d) && (datetime.month d <=? 12)
   && (1 <=? datetime.day d)
   && (datetime.day d <=? days_in_month (datetime.year d) (datetime.month d))
   && (datetime.hour d <? 24) && (datetime.minute d <? 60)
   && (datetime.second d <? 60))%Z.

Definition bad_time_data (s : string) : exn :=
  ValueError ("time data '" ++ s
                ++ "' does not match format '%Y-%m-%dT%H:%M:%SZ'").

(** Modelled from the spec: [date_from_iso8601] of [ciel/common.py], which
    is not among the sources, "converts an ISO-8601 string to a comparable
    timestamp value".  The model accepts the UTC form
    [YYYY-MM-DDTHH:MM:SSZ] of a calendar date and time, and raises
    [ValueError] on every other string, as a parser that returns a
    [datetime] has to. *)
Definition date_from_iso8601 (s : string) : Result datetime.t :=
  match list_ascii_of_string s with
  | [y1; y2; y3; y4; c1; m1; m2; c2; d1; d2; c3;
     h1; h2; c4; i1; i2; c5; s1; s2; c6] =>
      if Ascii.eqb c1 "-" && Ascii.eqb c2 "-" && Ascii.eqb c3 "T"
         && Ascii.eqb c4 ":" && Ascii.eqb c5 ":" && Ascii.eqb c6 "Z"
      then
        match number [y1; y2; y3; y4] 0, number [m1; m2] 0,
              number [d1; d2] 0, number [h1; h2] 0,
              number [i1; i2] 0, number [s1; s2] 0 with
        | Some y, Some m, Some d, Some h, Some i, Some sec =>
            let t := datetime.mk y m d h i sec in
            if valid t then Ok t else Raise (bad_time_data s)
        | _, _, _, _, _, _ => Raise (bad_time_data s)
        end
      else Raise (bad_time_data s)
  | _ => Raise (bad_time_data s)
  end.

(** Modelled from the spec: [Version.__lt__] of [ciel/common.py], which is
    not among the sources: "versions compare primarily by [upload_date]";
    the tie-break is left open by the spec, and versions of one upload date
    are taken as equivalent. *)
Definition Version_lt (a b : Version.t) : bool :=
  datetime.ltb (Version.upload_date a) (Version.upload_date b).

End Common.

Module GitHub.

(** Modelled from the spec: [RepoInfo] of [ciel/github.py], which is not
    among the sources: "one repository identifier (owner + name) parsed once
    at construction from a combined "owner/repo" string". *)
Record RepoInfo : Type := mkRepoInfo { owner : string; name : string }.

Definition id (r : RepoInfo) : string := owner r ++ "/" ++ name r.

Definition from_id (repo_id : string) : Result RepoInfo :=
  match Py.split1 "/" repo_id with
  | [o; n] => Ok (mkRepoInfo o n)
  | _ => Raise (ValueError ("Invalid repository id '" ++ repo_id ++ "'"))
  end.

End GitHub.

(** A simulated feed in the place of the session: the releases of the
    repository in feed order, served in pages, and the log of the requests
    made so far (the path and, for the page requests, the params). *)
Module Sim.

Record Session : Type := mkSession {
  feed : list Release.t;
  log : list (string * option Params)
}.

Definition start (releases : list Release.t) : Session :=
  mkSession releases [].

(** The page [page] (counted from 1) of [per_page] items. *)
Definition page_of (releases : list Release.t) (p : Params)
  : list Release.t :=
  firstn (Z.to_nat (per_page p))
         (skipn (Z.to_nat ((page p - 1) * per_page p)) releases).

Definition api_releases (s : Session) (_ : GitHub.RepoInfo) (p : Params)
  : Session * Result (list Release.t) :=
  (mkSession (feed s) (log s ++ [("/releases", Some p)]),
   Ok (page_of (feed s) p)).

Definition api_release_by_tag (s : Session) (_ : GitHub.RepoInfo)
    (path : string) : Session * Result Release.t :=
  (mkSession (feed s) (log s ++ [(path, None)]),
   match find (fun r => String.eqb path
                          ("/releases/tags/" ++ Release.tag_name r))
              (feed s) with
   | Some r => Ok r
   | None => Raise (HTTPStatusError 404)
   end).

(** The number of page requests made so far. *)
Definition page_requests (s : Session) : nat :=
  List.length (filter (fun e => String.eqb (fst e) "/releases") (log s)).

Definition volare : GitHubReleasesDataSource GitHub.RepoInfo :=
  mkGitHub (GitHub.mkRepoInfo "efabless" "volare").

Definition get_available_versions (fuel : nat) (pdk : string)
    (releases : list Release.t) :=
  get_available_versions GitHub.id api_releases Common.date_from_iso8601
    Common.Version_lt fuel volare pdk (start releases).

Definition get_downloads_for_version (version : Version.t)
    (releases : list Release.t) :=
  get_downloads_for_version api_release_by_tag volare version
    (start releases).

End Sim.

(* ===================================================================== *)
(** ** Vocabulary of the statements *)

(** The tag [tag] divided at its last ["-"]: [family] before it, [hash]
    after it, and no further ["-"] in [hash]. *)
Definition last_hyphen_split (tag family hash : string) : Prop :=
  tag = family ++ "-" ++ hash /\ Py.contains "-" hash = false.




(** The test that the loop body makes on a release before it builds a
    version: not a draft, and the family of the tag is [pdk]. *)
Definition selected (pdk : string) (r : Release.t) : bool :=
  negb (Release.draft r)
  && match Py.rsplit1 "-" (Release.tag_name r) with
     | [family; _] => String.eqb pdk family
     | _ => false
     end.

Definition nondraft (r : Release.t) : bool := negb (Release.draft r).

(** The version [v] is the one that the release [r] stands for, for the
    family [pdk] and a timestamp parser. *)
Definition built_from (date_from_iso8601 : string -> Result datetime.t)
    (pdk : string) (r : Release.t) (v : Version.t) : Prop :=
  Release.draft r = false
  /\ last_hyphen_split (Release.tag_name r) pdk (Version.name v)
  /\ Version.pdk v = pdk
  /\ date_from_iso8601 (Release.published_at r) = Ok (Version.upload_date v)
  /\ extract_commit_date date_from_iso8601 (Release.body r)
     = Ok (Version.commit_date v)
  /\ Version.prerelease v = Release.prerelease r.

(** A release that the loop body can process: its tag has a ["-"], and its
    publication date and its commit-date annotation, if any, are accepted by
    the parser. *)
Definition well_formed (date_from_iso8601 : string -> Result datetime.t)
    (r : Release.t) : Prop :=
  Py.contains "-" (Release.tag_name r) = true
  /\ (exists d, date_from_iso8601 (Release.published_at r) = Ok d)
  /\ (exists c, extract_commit_date date_from_iso8601 (Release.body r) = Ok c).

(** The dates of a release are accepted: its publication date by the
    parser, and its body is a text in which [commit_rx] matches nowhere or
    matches a group that the parser accepts. *)
Definition dates_parse (date_from_iso8601 : string -> Result datetime.t)
    (r : Release.t) : Prop :=
  (exists d, date_from_iso8601 (Release.published_at r) = Ok d)
  /\ exists text,
       Release.body r = Some text
       /\ (commit_rx_search text = None
           \/ exists g d, commit_rx_search text = Some g
                          /\ date_from_iso8601 g = Ok d).

(** [ceil(n / d)] *)
Definition ceil_div (n d : nat) : nat := (n + d - 1) / d.

(** [a] is not older than [b]: the order of a list sorted newest first. *)
Definition newer_or_same (a b : Version.t) : Prop :=
  datetime.leb (Version.upload_date b) (Version.upload_date a) = true.

(** The pagination in the words of the specification, to compare with
    [fetch_more] and [fetch_releases]: "requesting subsequent pages while
    the previous page returned a full page; stop on the first short/empty
    page".  The request of a subsequent page carries the counter. *)
Section PaginationBySpec.
Variable RepoInfo : Type.
Variable Session : Type.
Variable api_releases :
  Session -> RepoInfo -> Params -> Session * Result (list Release.t).

Fixpoint fetch_more_by_spec (fuel : nat)
    (self : GitHubReleasesDataSource RepoInfo)
    (s : Session) (page : Z) (last releases : list Release.t)
  : option (Session * Result (list Release.t)) :=
  if Nat.eqb (List.length last) 100 then
    match fuel with
    | O => None
    | S fuel' =>
        let page := (page + 1)%Z in
        match api_releases s (repo self)
                {| page := page; per_page := 100 |} with
        | (s', Raise e) => Some (s', Raise e)
        | (s', Ok last') =>
            fetch_more_by_spec fuel' self s' page last' (releases ++ last')
        end
    end
  else Some (s, Ok releases).

Definition fetch_releases_by_spec (fuel : nat)
    (self : GitHubReleasesDataSource RepoInfo) (s : Session)
  : option (Session * Result (list Release.t)) :=
  match api_releases s (repo self) {| page := 1; per_page := 100 |} with
  | (s', Raise e) => Some (s', Raise e)
  | (s', Ok last) => fetch_more_by_spec fuel self s' 1 last last
  end.

End PaginationBySpec.

Arguments fetch_more_by_spec {RepoInfo Session} api_releases fuel self s page
  last releases.
Arguments fetch_releases_by_spec {RepoInfo Session} api_releases fuel self s.

(** The pagination property as the specification words it, for a simulated
    feed: some run of [get_available_versions] returns after exactly
    [ceil(N / 100)] page requests, having processed the [N] releases of the
    feed, each once. *)
Definition pagination_claim (pdk : string) (releases : list Release.t)
  : Prop :=
  exists fuel s',
    Sim.get_available_versions fuel pdk releases
    = Some (s', process_releases GitHub.id Common.date_from_iso8601
                  Common.Version_lt pdk Sim.volare releases)
    /\ Sim.page_requests s' = ceil_div (List.length releases) 100.

(** The only page request that the data source ever makes. *)
Definition first_page : string * option Params :=
  ("/releases", Some {| page := 1; per_page := 100 |}).

(** Feeds of the examples. *)
Module Examples.

Definition release (tag published body : string) : Release.t :=
  Release.mk false tag published (Some body) false [].

Definition draft_release (tag published body : string) : Release.t :=
  Release.mk true tag published (Some body) false [].

Definition families : list Release.t :=
  [release "skyN-abcd123" "2021-01-01T00:00:00Z" "";
   release "sky130-ef0123" "2023-06-15T00:00:00Z" "";
   release "sky130-extra-9999" "2022-03-10T00:00:00Z" ""].

(** A feed of 150 releases, tagged [sky130-1] to [sky130-150]. *)
Definition long_feed : list Release.t :=
  map (fun n => release ("sky130-" ++ NilZero.string_of_uint (Nat.to_uint n))
                  "2023-06-15T00:00:00Z" "")
      (seq 1 150).

Definition three_dates : list Release.t :=
  [release "sky130-aaa" "2021-01-01T00:00:00Z" "";
   release "sky130-bbb" "2023-06-15T00:00:00Z" "";
   release "sky130-ccc" "2022-03-10T00:00:00Z" ""].

Definition with_malformed_tag : list Release.t :=
  [release "sky130-ef0123" "2023-06-15T00:00:00Z" "";
   release "nightly" "2023-06-16T00:00:00Z" ""].

Definition with_draft : list Release.t :=
  [draft_release "sky130-d00d" "2024-01-01T00:00:00Z" "";
   draft_release "nightly" "" "";
   release "sky130-ef0123" "2023-06-15T00:00:00Z" ""].

Definition annotated : Release.t :=
  release "sky130-ef0123" "2023-06-15T00:00:00Z"
    "open_pdks: released on 2022-05-01T12:00:00Z from master".

Definition not_annotated : Release.t :=
  release "sky130-ef0123" "2023-06-15T00:00:00Z" "Nightly build.".

Definition badly_annotated : Release.t :=
  release "sky130-ef0123" "2023-06-15T00:00:00Z"
    "To be released on T-minus one day.".

Definition assets : list AssetJson.t :=
  [AssetJson.mk "a.tar.zst" "https://example.org/a.tar.zst";
   AssetJson.mk "a.tar.zst.sha256" "https://example.org/a.tar.zst.sha256";
   AssetJson.mk "readme.md" "https://example.org/readme.md"].

Definition with_assets : list Release.t :=
  [Release.mk false "sky130-ef0123" "2023-06-15T00:00:00Z" (Some "") false
     assets].

Definition ef0123 : Version.t :=
  Version.mk "ef0123" "sky130" None (datetime.mk 2023 6 15 0 0 0) false.

Definition ef0123_annotated : Version.t :=
  Version.mk "ef0123" "sky130" (Some (datetime.mk 2022 5 1 12 0 0))
    (datetime.mk 2023 6 15 0 0 0) false.

Definition bbb : Version.t :=
  Version.mk "bbb" "sky130" None (datetime.mk 2023 6 15 0 0 0) false.
Definition ccc : Version.t :=
  Version.mk "ccc" "sky130" None (datetime.mk 2022 3 10 0 0 0) false.
Definition aaa : Version.t :=
  Version.mk "aaa" "sky130" None (datetime.mk 2021 1 1 0 0 0) false.

Definition a_tar_zst : Asset.t :=
  Asset.mk "a" "a.tar.zst" "https://example.org/a.tar.zst".

End Examples.

(* ===================================================================== *)
(** ** The commands of [ciel/__main__.py] that call the data source *)

(** What a command leaves behind: what it wrote to the standard output and
    to the standard error, and its exit status. *)
Record Outcome : Type := mkOutcome {
  stdout : string;
  stderr : string;
  status : Z
}.

(** The line feed that [print] appends. *)
Definition nl : string := String "010" EmptyString.

(** [str(e)] of an exception; the text of the [httpx] errors is a
    parameter. *)
Definition str_exn (str_httpx : exn -> string) (e : exn) : string :=
  match e with
  | ValueError msg => msg
  | TypeError msg => msg
  | OtherError _ msg => msg
  | HTTPStatusError _ => str_httpx e
  | NetworkError => str_httpx e
  end.

(** The exceptions that [list_remote_cmd] has an [except] clause for. *)
Definition handled_by_ls_remote (e : exn) : bool :=
  match e with
  | ValueError _ => true
  | HTTPStatusError _ => true
  | NetworkError => true
  | TypeError _ => false
  | OtherError _ _ => false
  end.

Section ListRemote.
Variable RepoInfo : Type.
Variable RepoInfo_id : RepoInfo -> string.
Variable Session : Type.
Variable api_releases :
  Session -> RepoInfo -> Params -> Session * Result (list Release.t).
Variable date_from_iso8601 : string -> Result datetime.t.
Variable Version_lt : Version.t -> Version.t -> bool.

(** [print_remote_list] of [ciel/manage.py], the rendering of
    [Console.print] of [rich], [str] of the [httpx] errors, and the
    traceback that the interpreter prints for an exception that nothing
    catches are parameters. *)
Variable print_remote_list : string -> string -> list Version.t -> string.
Variable console_print : string -> string.
Variable str_httpx : exn -> string.
Variable traceback : exn -> string.

(** [data_source.get_available_versions(pdk)], dispatched on the class of
    the data source. *)
Definition DataSource_get_available_versions (fuel : nat)
    (data_source : DataSource RepoInfo) (pdk : string) (s : Session)
  : option (Session * Result (list Version.t)) :=
  match data_source with
  | GitHubReleases self =>
      get_available_versions RepoInfo_id api_releases date_from_iso8601
        Version_lt fuel self pdk s
  end.

(** The [for version in pdk_versions: print(version.name)] loop. *)
Fixpoint print_names (pdk_versions : list Version.t) : string :=
  match pdk_versions with
  | [] => ""
  | version :: rest => Version.name version ++ nl ++ print_names rest
  end.

(** [list_remote_cmd] (the command [ls-remote]); [isatty] is
    [sys.stdout.isatty()].  A normal return is the exit status 0.  An
    exception that has no [except] clause leaves the command: the
    interpreter prints the traceback on the standard error and the exit
    status is 1. *)
Definition list_remote_cmd (isatty : bool) (fuel : nat)
    (data_source : DataSource RepoInfo) (pdk_root pdk_family : string)
    (s : Session) : option (Session * Outcome) :=
  match DataSource_get_available_versions fuel data_source pdk_family s with
  | None => None
  | Some (s', Ok pdk_versions) =>
      Some (s',
            if isatty
            then mkOutcome (print_remote_list pdk_root pdk_family pdk_versions)
                   "" 0
            else mkOutcome (print_names pdk_versions) "" 0)
  | Some (s', Raise (ValueError msg)) =>
      let e := ValueError msg in
      Some (s',
            if isatty
            then mkOutcome (console_print ("[red]" ++ str_exn str_httpx e))
                   "" (-1)
            else mkOutcome "" (str_exn str_httpx e ++ nl) (-1))
  | Some (s', Raise (HTTPStatusError code)) =>
      let e := HTTPStatusError code in
      Some (s',
            if isatty
            then mkOutcome
                   (console_print
                      ("[red]Encountered an error when polling version list: "
                         ++ str_exn str_httpx e))
                   "" (-1)
            else mkOutcome ""
                   ("Failed to get version list: " ++ str_exn str_httpx e
                      ++ nl)
                   (-1))
  | Some (s', Raise NetworkError) =>
      let e := NetworkError in
      Some (s',
            if isatty
            then mkOutcome
                   (console_print
                      "[red]You don't appear to be connected to the Internet. ls-remote cannot be used.")
                   "" (-1)
            else mkOutcome ""
                   ("Failed to connect to remote server: "
                      ++ str_exn str_httpx e ++ nl)
                   (-1))
  | Some (s', Raise (TypeError msg)) =>
      Some (s', mkOutcome "" (traceback (TypeError msg)) 1)
  | Some (s', Raise (OtherError cls msg)) =>
      Some (s', mkOutcome "" (traceback (OtherError cls msg)) 1)
  end.

End ListRemote.

Arguments DataSource_get_available_versions {RepoInfo} RepoInfo_id {Session}
  api_releases date_from_iso8601 Version_lt fuel data_source pdk s.
Arguments list_remote_cmd {RepoInfo} RepoInfo_id {Session} api_releases
  date_from_iso8601 Version_lt print_remote_list console_print str_httpx
  traceback
  isatty fuel data_source pdk_root pdk_family s.

Section Prune.

(** The installed versions live in the file system, which is a state [FS];
    [Version.is_current], [Version.uninstall] and [str] of a version and of
    an exception are parameters. *)
Variable FS : Type.
Variable is_current : FS -> Version.t -> bool.
Variable uninstall : FS -> Version.t -> FS * Result unit.
Variable Version_str : Version.t -> string.
Variable str_of_exn : exn -> string.

(** The [for version in pdk_versions] loop of [prune_cmd]: the current
    version is passed over, and a failure to uninstall is reported and does
    not end the loop. *)
Fixpoint prune_loop (pdk_versions : list Version.t) (fs : FS) (o : Outcome)
  : FS * Outcome :=
  match pdk_versions with
  | [] => (fs, o)
  | version :: rest =>
      if is_current fs version then prune_loop rest fs o
      else
        match uninstall fs version with
        | (fs', Ok _) =>
            prune_loop rest fs'
              (mkOutcome
                 (stdout o ++ "Deleted " ++ Version_str version ++ "." ++ nl)
                 (stderr o) (status o))
        | (fs', Raise e) =>
            prune_loop rest fs'
              (mkOutcome (stdout o)
                 (stderr o ++ "Failed to delete " ++ Version_str version
                    ++ ": " ++ str_of_exn e ++ nl)
                 (status o))
        end
  end.

(** [prune_cmd], once the confirmation [--yes] has let it run;
    [pdk_versions] is the result of [Version.get_all_installed]. *)
Definition prune_cmd (pdk_versions : list Version.t) (fs : FS)
  : FS * Outcome :=
  prune_loop pdk_versions fs (mkOutcome "" "" 0).

End Prune.

Arguments prune_loop {FS} is_current uninstall Version_str str_of_exn
  pdk_versions fs o.
Arguments prune_cmd {FS} is_current uninstall Version_str str_of_exn
  pdk_versions fs.

(** A file system that also records the versions that [uninstall] was
    called on, to state what [prune_cmd] calls. *)
Definition traced_is_current {FS : Type} (is_current : FS -> Version.t -> bool)
    (st : FS * list Version.t) (v : Version.t) : bool :=
  is_current (fst st) v.

Definition traced_uninstall {FS : Type}
    (uninstall : FS -> Version.t -> FS * Result unit)
    (st : FS * list Version.t) (v : Version.t)
  : (FS * list Version.t) * Result unit :=
  let (fs', r) := uninstall (fst st) v in ((fs', (snd st ++ [v])%list), r).

(** A session that plays a script: each request is answered by the next
    response of the list (an empty page once the list is used up), and the
    params of the requests are recorded. *)
Module Script.

Record Session : Type := mk {
  pending : list (Result (list Release.t));
  requests : list Params
}.

Definition api_releases {RepoInfo : Type} (s : Session) (_ : RepoInfo)
    (p : Params) : Session * Result (list Release.t) :=
  match pending s with
  | [] => (mk [] (requests s ++ [p]), Ok [])
  | r :: rest => (mk rest (requests s ++ [p]), r)
  end.

(** The response that ends the pagination: an error, or a page that is not
    full. *)
Definition ends (final : Result (list Release.t)) : Prop :=
  match final with
  | Ok short => List.length short <> 100
  | Raise _ => True
  end.

(** What the pagination returns when it has got [releases] and then
    [final]. *)
Definition outcome (releases : list Release.t)
    (final : Result (list Release.t)) : Result (list Release.t) :=
  match final with
  | Ok short => Ok (releases ++ short)%list
  | Raise e => Raise e
  end.

End Script.

(** Neither of [a] and [b] is smaller than the other. *)
Definition tie {A : Type} (lt : A -> A -> bool) (a b : A) : bool :=
  negb (lt a b) && negb (lt b a).

(** A small file system for the examples: the names of the installed
    versions and the name of the enabled one; uninstalling a version that
    is not installed fails. *)
Module ToyFS.

Record t : Type := mk { installed : list string; enabled : string }.

Definition is_current (fs : t) (v : Version.t) : bool :=
  String.eqb (enabled fs) (Version.name v).

Definition uninstall (fs : t) (v : Version.t) : t * Result unit :=
  if existsb (String.eqb (Version.name v)) (installed fs)
  then (mk (filter (fun n => negb (String.eqb (Version.name v) n))
                   (installed fs))
           (enabled fs),
        Ok tt)
  else (fs, Raise (ValueError "Version not installed."))%string.

End ToyFS.

Module MoreExamples.

(** Two releases of one upload date around a newer one. *)
Definition tied : list Release.t :=
  [Examples.release "sky130-first" "2022-03-10T00:00:00Z" "";
   Examples.release "sky130-newer" "2023-06-15T00:00:00Z" "";
   Examples.release "sky130-second" "2022-03-10T00:00:00Z" ""].

Definition first : Version.t :=
  Version.mk "first" "sky130" None (datetime.mk 2022 3 10 0 0 0) false.
Definition newer : Version.t :=
  Version.mk "newer" "sky130" None (datetime.mk 2023 6 15 0 0 0) false.
Definition second : Version.t :=
  Version.mk "second" "sky130" None (datetime.mk 2022 3 10 0 0 0) false.

(** A release of another family whose dates no parser accepts. *)
Definition other_family_garbage : list Release.t :=
  [Examples.release "gf180mcu-0fe599b" "yesterday" "released on T-";
   Examples.release "sky130-ef0123" "2023-06-15T00:00:00Z" ""].

(** A release of the family whose publication date is not a timestamp,
    before one whose annotation is not a timestamp. *)
Definition bad_published : list Release.t :=
  [Examples.release "sky130-ef0123" "2023-06-15T00:00:00Z" "";
   Examples.release "sky130-bad" "yesterday" "";
   Examples.badly_annotated].

(** The three tags of the family example, after a release of another
    family whose dates no parser accepts and which has no description. *)
Definition families_with_garbage : list Release.t :=
  Release.mk false "gf180mcu-0fe599b" "yesterday" None false []
    :: Examples.families.

(** A release of the family without a description. *)
Definition no_description : Release.t :=
  Release.mk false "sky130-ef0123" "2023-06-15T00:00:00Z" None false [].

Definition one_page : list (list Release.t) :=
  [repeat (Examples.release "sky130-ef0123" "2023-06-15T00:00:00Z" "") 100].

Definition installed : list Version.t :=
  [Examples.aaa; Examples.bbb; Examples.ccc].

Definition toy : ToyFS.t := ToyFS.mk ["aaa"; "ccc"] "ccc".

End MoreExamples.

(* ===================================================================== *)
(** * Properties *)

(** ** Strings *)

Section StringFacts.


Lemma append_empty_r (a : string) : a ++ "" = a.
Proof. induction a as [|x a IH]; simpl; [reflexivity | now rewrite IH]. Qed.

Lemma length_append (a b : string) :
  String.length (a ++ b) = String.length a + String.length b.
Proof. induction a as [|x a IH]; simpl; [reflexivity | now rewrite IH]. Qed.

Lemma substring_0_append (a b : string) :
  substring 0 (String.length a) (a ++ b) = a.
Proof.
  induction a as [|x a IH]; simpl.
  - now destruct b.
  - now rewrite IH.
Qed.

Lemma contains_append (sep : ascii) (a b : string) :
  Py.contains sep (a ++ b) = Py.contains sep a || Py.contains sep b.
Proof.
  induction a as [|x a IH]; simpl; [reflexivity|].
  rewrite IH. now rewrite orb_assoc.
Qed.

Lemma rsplit1_absent (sep : ascii) (s : string) :
  Py.contains sep s = false -> Py.rsplit1 sep s = [s].
Proof.
  induction s as [|c s IH]; simpl; intros H; [reflexivity|].
  apply orb_false_iff in H. destruct H as [Hc Hs].
  rewrite (IH Hs), Hc. reflexivity.
Qed.

Lemma rsplit1_append (sep : ascii) (a b : string) :
  Py.contains sep b = false ->
  Py.rsplit1 sep (a ++ String sep b) = [a; b].
Proof.
  intros Hb. induction a as [|c a IH]; simpl.
  - rewrite (rsplit1_absent _ _ Hb), Ascii.eqb_refl. reflexivity.
  - rewrite IH. reflexivity.
Qed.

Lemma contains_last (sep : ascii) (s : string) :
  Py.contains sep s = true ->
  exists a b, s = a ++ String sep b /\ Py.contains sep b = false.
Proof.
  induction s as [|c s IH]; simpl; intros H; [discriminate|].
  destruct (Py.contains sep s) eqn:Hs.
  - destruct (IH eq_refl) as (a & b & -> & Hb).
    exists (String c a), b. split; [reflexivity | exact Hb].
  - rewrite orb_false_r in H. apply Ascii.eqb_eq in H. subst c.
    exists "", s. split; [reflexivity | exact Hs].
Qed.

(** [rsplit1] divides at the last separator, and only there. *)
Lemma rsplit1_pair (sep : ascii) (s a b : string) :
  Py.rsplit1 sep s = [a; b] <->
  s = a ++ String sep b /\ Py.contains sep b = false.
Proof.
  split.
  - intros H. destruct (Py.contains sep s) eqn:Hs.
    + destruct (contains_last _ _ Hs) as (a' & b' & E & Hb').
      subst s. rewrite (rsplit1_append _ _ _ Hb') in H.
      injection H as <- <-. split; [reflexivity | exact Hb'].
    + rewrite (rsplit1_absent _ _ Hs) in H. discriminate.
  - intros [-> Hb]. now apply rsplit1_append.
Qed.

Lemma rsplit1_single (sep : ascii) (s : string) :
  Py.contains sep s = false <-> Py.rsplit1 sep s = [s].
Proof.
  split; [apply rsplit1_absent|].
  intros H. destruct (Py.contains sep s) eqn:Hs; [|reflexivity].
  destruct (contains_last _ _ Hs) as (a & b & E & Hb).
  rewrite E in H at 1. rewrite (rsplit1_append _ _ _ Hb) in H. discriminate.
Qed.

Lemma split1_absent (sep : ascii) (s : string) :
  Py.contains sep s = false -> Py.split1 sep s = [s].
Proof.
  induction s as [|c s IH]; simpl; intros H; [reflexivity|].
  apply orb_false_iff in H. destruct H as [Hc Hs].
  rewrite Hc, (IH Hs). reflexivity.
Qed.

Lemma split1_append (sep : ascii) (a b : string) :
  Py.contains sep a = false ->
  Py.split1 sep (a ++ String sep b) = [a; b].
Proof.
  induction a as [|c a IH]; simpl; intros H.
  - now rewrite Ascii.eqb_refl.
  - apply orb_false_iff in H. destruct H as [Hc Ha].
    rewrite Hc, (IH Ha). reflexivity.
Qed.

Lemma endswith_append (p suffix : string) :
  Py.endswith (p ++ suffix) suffix = true.
Proof.
  induction p as [|c p IH]; simpl.
  - destruct suffix; simpl; [reflexivity|].
    now rewrite Ascii.eqb_refl, String.eqb_refl.
  - rewrite IH. apply orb_true_r.
Qed.

Lemma endswith_cons (c : ascii) (s suffix : string) :
  Py.endswith (String c s) suffix
  = String.eqb (String c s) suffix || Py.endswith s suffix.
Proof. reflexivity. Qed.

Lemma endswith_inv (s suffix : string) :
  Py.endswith s suffix = true -> exists p, s = p ++ suffix.
Proof.
  induction s as [|c s IH]; intros H.
  - destruct suffix; [now exists "" | discriminate].
  - rewrite endswith_cons in H. apply orb_true_iff in H. destruct H as [H|H].
    + apply String.eqb_eq in H. exists "". now rewrite <- H.
    + destruct (IH H) as [p ->]. now exists (String c p).
Qed.

Lemma slice_to_minus_append (p suffix : string) :
  Py.slice_to_minus (String.length suffix) (p ++ suffix) = p.
Proof.
  unfold Py.slice_to_minus. rewrite length_append.
  replace (String.length p + String.length suffix - String.length suffix)
    with (String.length p) by lia.
  apply substring_0_append.
Qed.

End StringFacts.

(** ** Sorting *)

Section SortFacts.
Context {A : Type} (lt : A -> A -> bool).

Lemma insert_stable_perm (x : A) (l : list A) :
  Permutation (insert_stable lt x l) (x :: l).
Proof.
  induction l as [|y l IH]; simpl.
  - apply Permutation_refl.
  - destruct (lt y x).
    + eapply perm_trans; [apply perm_skip, IH | apply perm_swap].
    + apply Permutation_refl.
Qed.

Lemma stable_sort_perm (l : list A) : Permutation (stable_sort lt l) l.
Proof.
  induction l as [|x l IH]; simpl.
  - apply perm_nil.
  - eapply perm_trans; [apply insert_stable_perm | apply perm_skip, IH].
Qed.

Lemma sort_reverse_perm (l : list A) : Permutation (sort_reverse lt l) l.
Proof.
  unfold sort_reverse.
  eapply perm_trans; [apply Permutation_sym, Permutation_rev|].
  eapply perm_trans; [apply stable_sort_perm|].
  apply Permutation_sym, Permutation_rev.
Qed.

Lemma sort_reverse_length (l : list A) :
  List.length (sort_reverse lt l) = List.length l.
Proof. apply Permutation_length, sort_reverse_perm. Qed.

Lemma sort_reverse_In (x : A) (l : list A) :
  In x (sort_reverse lt l) <-> In x l.
Proof.
  split; apply Permutation_in;
    [apply sort_reverse_perm | apply Permutation_sym, sort_reverse_perm].
Qed.

Lemma sort_reverse_nil_iff (l : list A) : sort_reverse lt l = [] <-> l = [].
Proof.
  split; intros H.
  - apply length_zero_iff_nil. rewrite <- sort_reverse_length, H. reflexivity.
  - subst. reflexivity.
Qed.

(** The two properties of [lt] that make the result of the sort ordered:
    it is asymmetric, and its complement is transitive. *)
Hypothesis lt_asym : forall a b, lt a b = true -> lt b a = false.
Hypothesis nlt_trans :
  forall a b c, lt b a = false -> lt c b = false -> lt c a = false.

Lemma insert_stable_sorted (x : A) (l : list A) :
  StronglySorted (fun a b => lt b a = false) l ->
  StronglySorted (fun a b => lt b a = false) (insert_stable lt x l).
Proof.
  induction 1 as [|y l Hl IH Hy]; simpl.
  - repeat constructor.
  - destruct (lt y x) eqn:E.
    + constructor; [exact IH|].
      eapply Permutation_Forall;
        [apply Permutation_sym, insert_stable_perm|].
      constructor; [now apply lt_asym | exact Hy].
    + constructor; [now constructor|].
      constructor; [exact E|].
      eapply Forall_impl; [|exact Hy].
      intros z Hz. now apply (nlt_trans x y z).
Qed.

Lemma stable_sort_sorted (l : list A) :
  StronglySorted (fun a b => lt b a = false) (stable_sort lt l).
Proof.
  induction l as [|x l IH]; simpl; [constructor|].
  now apply insert_stable_sorted.
Qed.

Lemma StronglySorted_snoc (R : A -> A -> Prop) (l : list A) (x : A) :
  StronglySorted R l -> Forall (fun y => R y x) l ->
  StronglySorted R (l ++ [x]).
Proof.
  induction 1 as [|y l Hl IH Hy]; simpl; intros Hx.
  - repeat constructor.
  - inversion Hx; subst. constructor; [now apply IH|].
    apply Forall_app. split; [exact Hy | now repeat constructor].
Qed.

Lemma StronglySorted_rev (R : A -> A -> Prop) (l : list A) :
  StronglySorted R l -> StronglySorted (fun a b => R b a) (rev l).
Proof.
  induction 1 as [|y l Hl IH Hy]; simpl; [constructor|].
  apply StronglySorted_snoc; [exact IH|].
  now apply Forall_rev.
Qed.

(** After [sort(reverse=True)] no element is smaller than a later one. *)
Lemma sort_reverse_sorted (l : list A) :
  StronglySorted (fun a b => lt a b = false) (sort_reverse lt l).
Proof.
  unfold sort_reverse.
  apply (StronglySorted_rev (fun a b => lt b a = false)).
  apply stable_sort_sorted.
Qed.

End SortFacts.

(** ** The order of timestamps *)

Section DatetimeFacts.

Lemma lex_compare_antisym (a b : list Z) :
  datetime.lex_compare b a = CompOpp (datetime.lex_compare a b).
Proof.
  revert b. induction a as [|x a IH]; intros [|y b]; simpl; try reflexivity.
  rewrite (Z.compare_antisym x y).
  destruct (x ?= y)%Z; simpl; [apply IH | reflexivity | reflexivity].
Qed.

Lemma lex_compare_le_trans (a b c : list Z) :
  datetime.lex_compare a b <> Gt -> datetime.lex_compare b c <> Gt ->
  datetime.lex_compare a c <> Gt.
Proof.
  revert b c. induction a as [|x a IH]; intros [|y b] [|z c]; simpl;
    try congruence.
  destruct (Z.compare_spec x y), (Z.compare_spec y z), (Z.compare_spec x z);
    try congruence; try lia; try apply IH.
Qed.

Lemma datetime_ltb_asym (a b : datetime.t) :
  datetime.ltb a b = true -> datetime.ltb b a = false.
Proof.
  unfold datetime.ltb, datetime.compare.
  rewrite (lex_compare_antisym (datetime.fields a) (datetime.fields b)).
  destruct (datetime.lex_compare _ _); simpl; congruence.
Qed.

Lemma datetime_nltb_trans (a b c : datetime.t) :
  datetime.ltb b a = false -> datetime.ltb c b = false ->
  datetime.ltb c a = false.
Proof.
  unfold datetime.ltb, datetime.compare. intros H1 H2.
  pose proof (lex_compare_le_trans (datetime.fields a) (datetime.fields b)
                (datetime.fields c)) as T.
  rewrite (lex_compare_antisym (datetime.fields a) (datetime.fields b)) in H1.
  rewrite (lex_compare_antisym (datetime.fields b) (datetime.fields c)) in H2.
  rewrite (lex_compare_antisym (datetime.fields a) (datetime.fields c)).
  destruct (datetime.lex_compare (datetime.fields a) (datetime.fields b)),
    (datetime.lex_compare (datetime.fields b) (datetime.fields c)),
    (datetime.lex_compare (datetime.fields a) (datetime.fields c));
    simpl in *; try congruence; exfalso; apply T; congruence.
Qed.

End DatetimeFacts.

(** ** The loop over the releases *)

Section LoopFacts.
Variable date_from_iso8601 : string -> Result datetime.t.

Local Abbreviation visit := (visit_release date_from_iso8601).
Local Abbreviation collect := (collect_versions date_from_iso8601).

Lemma visit_draft (pdk : string) (r : Release.t) :
  Release.draft r = true -> visit pdk r = Ok None.
Proof. unfold visit_release. now intros ->. Qed.

Lemma visit_malformed (pdk : string) (r : Release.t) :
  Release.draft r = false ->
  Py.contains "-" (Release.tag_name r) = false ->
  visit pdk r
  = Raise (ValueError "not enough values to unpack (expected 2, got 1)").
Proof.
  unfold visit_release. intros -> H.
  rewrite (rsplit1_absent _ _ H). reflexivity.
Qed.

Lemma selected_spec (pdk : string) (r : Release.t) :
  selected pdk r = true <->
  Release.draft r = false
  /\ exists hash, last_hyphen_split (Release.tag_name r) pdk hash.
Proof.
  unfold selected, last_hyphen_split. split.
  - intros H. apply andb_true_iff in H. destruct H as [Hd Hf].
    apply negb_true_iff in Hd. split; [exact Hd|].
    destruct (Py.rsplit1 "-" (Release.tag_name r)) as [|a [|b [|c l]]] eqn:E;
      try discriminate.
    apply String.eqb_eq in Hf. subst a. exists b.
    now apply rsplit1_pair in E.
  - intros [Hd [hash H]]. rewrite Hd. simpl.
    apply (rsplit1_pair "-") in H. rewrite H. apply String.eqb_refl.
Qed.

Lemma visit_Some_iff (pdk : string) (r : Release.t) (v : Version.t) :
  visit pdk r = Ok (Some v) <-> built_from date_from_iso8601 pdk r v.
Proof.
  unfold visit_release, built_from, last_hyphen_split. split.
  - destruct (Release.draft r); [discriminate|].
    destruct (Py.rsplit1 "-" (Release.tag_name r)) as [|a [|b [|c l]]] eqn:E;
      try discriminate.
    simpl. destruct (String.eqb_spec pdk a) as [<-|]; [|discriminate]. simpl.
    destruct (date_from_iso8601 (Release.published_at r)) as [u|];
      [|discriminate]. simpl.
    destruct (extract_commit_date date_from_iso8601 (Release.body r))
      as [c|]; [|discriminate]. simpl.
    intros H. injection H as <-. simpl.
    apply rsplit1_pair in E. destruct E as [E1 E2].
    repeat split; trivial.
  - intros (Hd & [Ht Hh] & Hp & Hu & Hc & Hpre).
    rewrite Hd.
    pose proof (proj2 (rsplit1_pair "-" _ _ _) (conj Ht Hh)) as E.
    rewrite E. simpl. rewrite String.eqb_refl. simpl.
    rewrite Hu. simpl. rewrite Hc. simpl.
    destruct v; simpl in *. subst. reflexivity.
Qed.

Lemma visit_Some_selected (pdk : string) (r : Release.t) (v : Version.t) :
  visit pdk r = Ok (Some v) -> selected pdk r = true.
Proof.
  intros H. apply visit_Some_iff in H.
  destruct H as (Hd & Hs & _). apply selected_spec. eauto.
Qed.

Lemma visit_None_selected (pdk : string) (r : Release.t) :
  visit pdk r = Ok None -> selected pdk r = false.
Proof.
  unfold visit_release, selected.
  destruct (Release.draft r); [reflexivity|].
  destruct (Py.rsplit1 "-" (Release.tag_name r)) as [|a [|b [|c l]]];
    try discriminate.
  simpl. destruct (String.eqb pdk a); [|reflexivity]. simpl.
  destruct (date_from_iso8601 (Release.published_at r)); [|discriminate].
  simpl.
  destruct (extract_commit_date date_from_iso8601 (Release.body r));
    discriminate.
Qed.

Lemma visit_well_formed (pdk : string) (r : Release.t) :
  well_formed date_from_iso8601 r -> exists o, visit pdk r = Ok o.
Proof.
  intros (Ht & [d Hd] & [c Hc]). unfold visit_release.
  destruct (Release.draft r); [eauto|].
  destruct (contains_last _ _ Ht) as (a & b & E & Hb).
  rewrite E, (rsplit1_append _ _ _ Hb). simpl.
  destruct (String.eqb pdk a); simpl; [|eauto].
  rewrite Hd. simpl. rewrite Hc. simpl. eauto.
Qed.

Lemma collect_acc (pdk : string) (rs : list Release.t) (acc : list Version.t) :
  collect pdk rs acc = (vs <- collect pdk rs [] ;; Ok (acc ++ vs)%list).
Proof.
  revert acc. induction rs as [|r rs IH]; intros acc; simpl.
  - now rewrite app_nil_r.
  - destruct (visit pdk r) as [[v|]|e]; [| apply IH | reflexivity].
    rewrite (IH (acc ++ [v])%list), (IH [v]).
    destruct (collect pdk rs []); simpl; [|reflexivity].
    now rewrite <- app_assoc.
Qed.

Lemma collect_cons (pdk : string) (r : Release.t) (rs : list Release.t) :
  collect pdk (r :: rs) []
  = match visit pdk r with
    | Raise e => Raise e
    | Ok None => collect pdk rs []
    | Ok (Some v) => vs <- collect pdk rs [] ;; Ok (v :: vs)
    end.
Proof.
  simpl. destruct (visit pdk r) as [[v|]|e]; try reflexivity.
  apply (collect_acc pdk rs [v]).
Qed.

(** The versions that the loop leaves are, in feed order, those of the
    selected releases. *)
Lemma collect_Forall2 (pdk : string) (rs : list Release.t)
    (vs : list Version.t) :
  collect pdk rs [] = Ok vs ->
  Forall2 (built_from date_from_iso8601 pdk) (filter (selected pdk) rs) vs.
Proof.
  revert vs. induction rs as [|r rs IH]; intros vs.
  - simpl. intros H. injection H as <-. constructor.
  - rewrite collect_cons. simpl.
    destruct (visit pdk r) as [[v|]|e] eqn:E; [| |discriminate].
    + rewrite (visit_Some_selected _ _ _ E).
      destruct (collect pdk rs []) as [vs'|]; [|discriminate]. simpl.
      intros H. injection H as <-. constructor; [|now apply IH].
      now apply visit_Some_iff.
    + rewrite (visit_None_selected _ _ E). apply IH.
Qed.

Lemma collect_total (pdk : string) (rs : list Release.t) :
  (forall r, In r rs -> exists o, visit pdk r = Ok o) ->
  exists vs, collect pdk rs [] = Ok vs.
Proof.
  induction rs as [|r rs IH]; intros H.
  - now exists [].
  - rewrite collect_cons.
    destruct (H r (or_introl eq_refl)) as [o ->].
    destruct IH as [vs Hvs]; [intros; apply H; now right|].
    rewrite Hvs. destruct o; simpl; eauto.
Qed.

Lemma collect_raise (pdk : string) (rs1 rs2 : list Release.t)
    (r : Release.t) (e : exn) :
  (forall r', In r' rs1 -> exists o, visit pdk r' = Ok o) ->
  visit pdk r = Raise e ->
  collect pdk (rs1 ++ r :: rs2) [] = Raise e.
Proof.
  intros H1 Hr. induction rs1 as [|r1 rs1 IH].
  - simpl (_ ++ _)%list. rewrite collect_cons, Hr. reflexivity.
  - simpl (_ ++ _)%list. rewrite collect_cons.
    destruct (H1 r1 (or_introl eq_refl)) as [o ->].
    rewrite IH; [|intros; apply H1; now right].
    now destruct o.
Qed.

Lemma collect_raise_In (pdk : string) (rs : list Release.t) (r : Release.t)
    (e : exn) :
  In r rs -> visit pdk r = Raise e -> exists e', collect pdk rs [] = Raise e'.
Proof.
  induction rs as [|r1 rs IH]; intros Hin Hr; [contradiction|].
  rewrite collect_cons. destruct Hin as [->|Hin].
  - rewrite Hr. eauto.
  - destruct (IH Hin Hr) as [e' ->].
    destruct (visit pdk r1) as [[v|]|e1]; simpl; eauto.
Qed.

Lemma collect_In (pdk : string) (rs : list Release.t) (vs : list Version.t)
    (v : Version.t) :
  collect pdk rs [] = Ok vs -> In v vs ->
  exists r, In r rs /\ built_from date_from_iso8601 pdk r v.
Proof.
  intros H Hv. apply collect_Forall2 in H.
  remember (filter (selected pdk) rs) as sel eqn:Hsel.
  assert (Hincl : forall r, In r sel -> In r rs)
    by (intros r Hr; subst sel; now apply filter_In in Hr).
  clear Hsel. induction H as [|r v' sel vs Hb HF IH]; [contradiction|].
  destruct Hv as [->|Hv].
  - exists r. split; [apply Hincl; now left | exact Hb].
  - apply IH; [exact Hv | intros; apply Hincl; now right].
Qed.

(** Drafts are invisible to the loop. *)
Lemma collect_nondraft (pdk : string) (rs : list Release.t)
    (acc : list Version.t) :
  collect pdk rs acc = collect pdk (filter nondraft rs) acc.
Proof.
  revert acc. induction rs as [|r rs IH]; intros acc; [reflexivity|].
  simpl. unfold nondraft at 1.
  destruct (Release.draft r) eqn:Hd; simpl.
  - rewrite (visit_draft _ _ Hd). apply IH.
  - destruct (visit pdk r) as [[v|]|e]; [apply IH | apply IH | reflexivity].
Qed.

End LoopFacts.

(** ** Fetching and finishing *)

Section FetchFacts.
Variable RepoInfo : Type.
Variable RepoInfo_id : RepoInfo -> string.
Variable Session : Type.
Variable api_releases :
  Session -> RepoInfo -> Params -> Session * Result (list Release.t).
Variable date_from_iso8601 : string -> Result datetime.t.
Variable Version_lt : Version.t -> Version.t -> bool.

Local Abbreviation fetch := (fetch_releases api_releases).
Local Abbreviation available :=
  (get_available_versions RepoInfo_id api_releases date_from_iso8601
     Version_lt).
Local Abbreviation process :=
  (process_releases RepoInfo_id date_from_iso8601 Version_lt).
Local Abbreviation finish := (finish_versions RepoInfo_id Version_lt).

(** A first page that is not full ends the pagination, whatever the fuel. *)
Lemma fetch_short (self : GitHubReleasesDataSource RepoInfo) (s s1 : Session)
    (rs : list Release.t) (fuel : nat) :
  api_releases s (repo self) {| page := 1; per_page := 100 |} = (s1, Ok rs) ->
  List.length rs <> 100 ->
  fetch fuel self s = Some (s1, Ok rs).
Proof.
  intros Hapi Hlen. unfold fetch_releases. rewrite Hapi.
  apply Nat.eqb_neq in Hlen.
  destruct fuel; simpl; now rewrite Hlen.
Qed.

Lemma available_fetched (self : GitHubReleasesDataSource RepoInfo)
    (s s1 : Session) (rs : list Release.t) (fuel : nat) (pdk : string) :
  fetch fuel self s = Some (s1, Ok rs) ->
  available fuel self pdk s = Some (s1, process pdk self rs).
Proof. unfold get_available_versions. now intros ->. Qed.

Lemma available_inv (self : GitHubReleasesDataSource RepoInfo)
    (s s1 : Session) (vs : list Version.t) (fuel : nat) (pdk : string) :
  available fuel self pdk s = Some (s1, Ok vs) ->
  exists rs, fetch fuel self s = Some (s1, Ok rs)
             /\ process pdk self rs = Ok vs.
Proof.
  unfold get_available_versions.
  destruct (fetch fuel self s) as [[s' [rs|e]]|]; try discriminate.
  intros H. injection H as -> H. eauto.
Qed.

Lemma finish_nil (self : GitHubReleasesDataSource RepoInfo) (pdk : string) :
  finish pdk self [] = Raise (ValueError (not_found_message RepoInfo_id pdk self)).
Proof. reflexivity. Qed.

Lemma finish_nonempty (self : GitHubReleasesDataSource RepoInfo)
    (pdk : string) (vs : list Version.t) :
  vs <> [] -> finish pdk self vs = Ok (sort_reverse Version_lt vs).
Proof.
  intros H. unfold finish_versions.
  destruct (sort_reverse Version_lt vs) eqn:E; [|reflexivity].
  apply sort_reverse_nil_iff in E. contradiction.
Qed.

Lemma finish_Ok (self : GitHubReleasesDataSource RepoInfo) (pdk : string)
    (vs vs' : list Version.t) :
  finish pdk self vs = Ok vs' ->
  vs <> [] /\ vs' <> [] /\ vs' = sort_reverse Version_lt vs.
Proof.
  destruct vs as [|v vs]; [discriminate|].
  rewrite finish_nonempty by discriminate.
  intros H. injection H as <-. repeat split; try discriminate.
  intros E. apply sort_reverse_nil_iff in E. discriminate.
Qed.

Lemma process_Ok (self : GitHubReleasesDataSource RepoInfo) (pdk : string)
    (rs : list Release.t) (vs' : list Version.t) :
  process pdk self rs = Ok vs' ->
  exists vs, collect_versions date_from_iso8601 pdk rs [] = Ok vs
             /\ vs <> [] /\ vs' <> []
             /\ vs' = sort_reverse Version_lt vs.
Proof.
  unfold process_releases.
  destruct (collect_versions date_from_iso8601 pdk rs []) as [vs|];
    [|discriminate].
  simpl. intros H. apply finish_Ok in H. exists vs. tauto.
Qed.

End FetchFacts.

(** ** The simulated feed *)

Section SimFacts.

Lemma page_of_first (rs : list Release.t) :
  Sim.page_of rs {| page := 1; per_page := 100 |} = firstn 100 rs.
Proof. reflexivity. Qed.

Lemma sim_fetch_short (rs : list Release.t) (fuel : nat) :
  List.length rs < 100 ->
  fetch_releases Sim.api_releases fuel Sim.volare (Sim.start rs)
  = Some (Sim.mkSession rs [first_page], Ok rs).
Proof.
  intros H.
  apply fetch_short; [|lia].
  unfold Sim.api_releases. rewrite page_of_first.
  rewrite firstn_all2 by (simpl; lia). reflexivity.
Qed.

Lemma sim_fetch_more_full (rs : list Release.t) (fuel : nat) :
  100 <= List.length rs ->
  forall (s : Sim.Session) (page : Z) (last releases : list Release.t),
    Sim.feed s = rs -> List.length last = 100 ->
    fetch_more Sim.api_releases fuel Sim.volare s page last releases = None.
Proof.
  intros Hlen. induction fuel as [|fuel IH]; intros s page last releases Hs Hl;
    simpl; rewrite Hl; simpl; [reflexivity|].
  apply IH; [exact Hs|].
  rewrite Hs, page_of_first, length_firstn. lia.
Qed.

(** On a feed of a hundred releases or more the loop asks for page 1 again
    and again (the counter [page] is incremented, but the request carries
    the constant 1), and never ends. *)
Lemma sim_fetch_full (rs : list Release.t) (fuel : nat) :
  100 <= List.length rs ->
  fetch_releases Sim.api_releases fuel Sim.volare (Sim.start rs) = None.
Proof.
  intros Hlen. unfold fetch_releases. simpl.
  apply (sim_fetch_more_full rs); [exact Hlen | reflexivity|].
  rewrite page_of_first, length_firstn.
  change (Sim.feed (Sim.start rs)) with rs. lia.
Qed.

End SimFacts.

Lemma sim_available_short (pdk : string) (rs : list Release.t) (fuel : nat) :
  List.length rs < 100 ->
  Sim.get_available_versions fuel pdk rs
  = Some (Sim.mkSession rs [first_page],
          process_releases GitHub.id Common.date_from_iso8601
            Common.Version_lt pdk Sim.volare rs).
Proof.
  intros H. unfold Sim.get_available_versions.
  apply available_fetched. now apply sim_fetch_short.
Qed.

(** On a feed of a hundred releases or more [get_available_versions] does
    not return: the second and every later request repeat page 1, which is
    full again. *)
Lemma sim_available_full (pdk : string) (rs : list Release.t) (fuel : nat) :
  100 <= List.length rs ->
  Sim.get_available_versions fuel pdk rs = None.
Proof.
  intros H. unfold Sim.get_available_versions, get_available_versions.
  now rewrite sim_fetch_full.
Qed.

(* ===================================================================== *)
(** * The properties of the specification *)

(** ** Pagination *)

(** X3.  For a simulated feed of [N < 100] releases, [get_available_versions]
    makes exactly one page request, for page 1 of 100 items, which is
    [N / 100 + 1] requests; it stops there, whatever the fuel, because that
    page is short or empty; and the releases it goes on to process are the
    [N] releases of the feed, each once and in feed order. *)
Lemma pagination_short_feed (pdk : string) (releases : list Release.t)
    (fuel : nat) :
  List.length releases < 100 ->
  exists s',
    fetch_releases Sim.api_releases fuel Sim.volare (Sim.start releases)
    = Some (s', Ok releases)
    /\ Sim.get_available_versions fuel pdk releases
       = Some (s', process_releases GitHub.id Common.date_from_iso8601
                     Common.Version_lt pdk Sim.volare releases)
    /\ Sim.log s' = [first_page]
    /\ Sim.page_requests s' = 1
    /\ Sim.page_requests s' = List.length releases / 100 + 1.
Proof.
  intros H. exists (Sim.mkSession releases [first_page]).
  split; [now apply sim_fetch_short|].
  split; [now apply sim_available_short|].
  split; [reflexivity|]. split; [reflexivity|].
  rewrite Nat.div_small by exact H. reflexivity.
Qed.

(** The counter [page] of the loop is dead: no request depends on it. *)
Lemma fetch_more_page_irrelevant (RepoInfo Session : Type)
    (api_releases :
       Session -> RepoInfo -> Params -> Session * Result (list Release.t))
    (self : GitHubReleasesDataSource RepoInfo) (fuel : nat) :
  forall (s : Session) (page page' : Z) (last releases : list Release.t),
    fetch_more api_releases fuel self s page last releases
    = fetch_more api_releases fuel self s page' last releases.
Proof.
  induction fuel as [|fuel IH]; intros s page page' last releases; simpl.
  - reflexivity.
  - destruct (Nat.eqb (List.length last) 100); [|reflexivity].
    destruct (api_releases s (repo self) {| page := 1; per_page := 100 |})
      as [s' [last'|e]]; [apply IH | reflexivity].
Qed.

(** The pagination in the words of the specification, on a simulated feed:
    with enough fuel it returns the whole feed, each release once, after
    [N / 100 + 1] page requests. *)
Lemma page_requests_snoc (f : list Release.t)
    (l : list (string * option Params)) (p : option Params) :
  Sim.page_requests (Sim.mkSession f (l ++ [("/releases", p)]))
  = Sim.page_requests (Sim.mkSession f l) + 1.
Proof.
  unfold Sim.page_requests. simpl. rewrite filter_app, length_app.
  reflexivity.
Qed.

Lemma firstn_add_skipn {A : Type} (a b : nat) (l : list A) :
  firstn (a + b) l = (firstn a l ++ firstn b (skipn a l))%list.
Proof.
  revert l. induction a as [|a IH]; intros l; [reflexivity|].
  destruct l as [|x l]; simpl.
  - now rewrite firstn_nil.
  - now rewrite IH.
Qed.

Lemma sim_fetch_more_by_spec (feed : list Release.t) (fuel : nat) :
  forall (k : nat) (s : Sim.Session) (last releases : list Release.t),
    Sim.feed s = feed ->
    1 <= k -> 100 * (k - 1) <= List.length feed ->
    last = firstn 100 (skipn (100 * (k - 1)) feed) ->
    releases = firstn (100 * k) feed ->
    Sim.page_requests s = k ->
    List.length feed / 100 + 1 - k <= fuel ->
    exists s',
      fetch_more_by_spec Sim.api_releases fuel Sim.volare s (Z.of_nat k)
        last releases
      = Some (s', Ok feed)
      /\ Sim.page_requests s' = List.length feed / 100 + 1.
Proof.
  induction fuel as [|fuel IH];
    intros k s last releases Hs Hk Hlow Hlast Hrel Hreq Hfuel.
  - assert (Hdiv : List.length feed / 100 + 1 <= k) by lia.
    assert (Hlt : List.length feed < 100 * k).
    { destruct (Nat.lt_ge_cases (List.length feed) (100 * k)) as [L|L];
        [exact L|].
      apply (Nat.div_le_lower_bound _ 100) in L; lia. }
    assert (Hn : Nat.eqb (List.length last) 100 = false).
    { apply Nat.eqb_neq. subst last.
      rewrite length_firstn, length_skipn. lia. }
    cbn [fetch_more_by_spec]. rewrite Hn. exists s. split.
    + subst releases. now rewrite firstn_all2 by lia.
    + assert (List.length feed / 100 <= k - 1)
        by (apply Nat.lt_succ_r, Nat.Div0.div_lt_upper_bound; lia).
      assert (k - 1 <= List.length feed / 100)
        by (apply Nat.div_le_lower_bound; lia).
      lia.
  - cbn [fetch_more_by_spec].
    destruct (Nat.eqb (List.length last) 100) eqn:Hn.
    + apply Nat.eqb_eq in Hn. subst last.
      rewrite length_firstn, length_skipn in Hn.
      assert (Hge : 100 * k <= List.length feed) by lia.
      unfold Sim.api_releases.
      assert (Hpage : Sim.page_of (Sim.feed s)
                        {| page := Z.of_nat k + 1; per_page := 100 |}
                      = firstn 100 (skipn (100 * k) feed)).
      { unfold Sim.page_of. simpl page. simpl per_page. rewrite Hs.
        replace (Z.to_nat ((Z.of_nat k + 1 - 1) * 100)) with (100 * k) by lia.
        reflexivity. }
      rewrite Hpage.
      replace (Z.of_nat k + 1)%Z with (Z.of_nat (k + 1)) by lia.
      apply IH.
      * reflexivity || exact Hs.
      * lia.
      * replace (k + 1 - 1) with k by lia. exact Hge.
      * now replace (k + 1 - 1) with k by lia.
      * subst releases.
        replace (100 * (k + 1)) with (100 * k + 100) by lia.
        apply eq_sym, firstn_add_skipn.
      * rewrite page_requests_snoc.
        destruct s as [f l]. simpl in *. now rewrite Hreq.
      * lia.
    + apply Nat.eqb_neq in Hn. exists s. subst last.
      rewrite length_firstn, length_skipn in Hn.
      assert (Hlt : List.length feed < 100 * k) by lia.
      split.
      * subst releases. now rewrite firstn_all2 by lia.
      * assert (List.length feed / 100 <= k - 1)
          by (apply Nat.lt_succ_r, Nat.Div0.div_lt_upper_bound; lia).
        assert (k - 1 <= List.length feed / 100)
          by (apply Nat.div_le_lower_bound; lia).
        lia.
Qed.

Lemma sim_fetch_by_spec (feed : list Release.t) (fuel : nat) :
  List.length feed / 100 <= fuel ->
  exists s',
    fetch_releases_by_spec Sim.api_releases fuel Sim.volare (Sim.start feed)
    = Some (s', Ok feed)
    /\ Sim.page_requests s' = List.length feed / 100 + 1.
Proof.
  intros Hfuel. unfold fetch_releases_by_spec, Sim.api_releases.
  rewrite page_of_first.
  apply (sim_fetch_more_by_spec feed fuel 1); try reflexivity; lia.
Qed.

(** C1.  The pagination does not do what the specification asks for on a
    feed of more than a page.  On the feed [Examples.long_feed] of 150
    releases the specification asks for [ceil(150 / 100) = 2] requests, for
    page 1 and for page 2, and for the 150 releases, which is what the
    pagination in the words of the specification gives; the loop of
    [get_available_versions] increments its counter but asks for page 1
    again, finds it full again, and never returns. *)
Theorem pagination_stuck_on_first_page :
  List.length Examples.long_feed = 150
  /\ ceil_div 150 100 = 2
  /\ (exists s',
         fetch_releases_by_spec Sim.api_releases 1 Sim.volare
           (Sim.start Examples.long_feed)
         = Some (s', Ok Examples.long_feed)
         /\ Sim.page_requests s' = 2)
  /\ (forall fuel,
         fetch_releases Sim.api_releases fuel Sim.volare
           (Sim.start Examples.long_feed) = None)
  /\ (forall fuel pdk,
         Sim.get_available_versions fuel pdk Examples.long_feed = None)
  /\ (forall pdk, ~ pagination_claim pdk Examples.long_feed).
Proof.
  assert (L : List.length Examples.long_feed = 150) by reflexivity.
  split; [exact L|]. split; [reflexivity|].
  split; [|split; [|split]].
  - destruct (sim_fetch_by_spec Examples.long_feed 1) as (s' & H1 & H2).
    + rewrite L. simpl. lia.
    + exists s'. split; [exact H1|]. rewrite H2, L. reflexivity.
  - intros fuel. apply sim_fetch_full. rewrite L. lia.
  - intros fuel pdk. apply sim_available_full. rewrite L. lia.
  - intros pdk (fuel & s' & H & _).
    rewrite sim_available_full in H by (rewrite L; lia). discriminate.
Qed.

(** The count [ceil(N / 100)] of the specification leaves out the request
    that finds the end of the feed when [N] is a multiple of 100: on the
    empty feed one request is made, for the first page, which is empty. *)
Remark pagination_empty_feed :
  exists s',
    Sim.get_available_versions 0 "sky130" []
    = Some (s', Raise (ValueError
                         (not_found_message GitHub.id "sky130" Sim.volare)))
    /\ Sim.page_requests s' = 1
    /\ ceil_div 0 100 = 0.
Proof. eexists. repeat split. Qed.

(** ** Filtering by family, and malformed tags *)

Section FilteringClaims.
Variable RepoInfo : Type.
Variable RepoInfo_id : RepoInfo -> string.
Variable Session : Type.
Variable api_releases :
  Session -> RepoInfo -> Params -> Session * Result (list Release.t).
Variable date_from_iso8601 : string -> Result datetime.t.
Variable Version_lt : Version.t -> Version.t -> bool.

Local Abbreviation fetch := (fetch_releases api_releases).
Local Abbreviation available :=
  (get_available_versions RepoInfo_id api_releases date_from_iso8601
     Version_lt).
Local Abbreviation process :=
  (process_releases RepoInfo_id date_from_iso8601 Version_lt).

(** C3, as amended.  A release that is not a draft and whose tag has no
    ["-"] makes [get_available_versions] raise, for every [pdk]: the
    two-way unpacking of the split tag fails with [ValueError], unless an
    earlier release has made the call fail before; so the release is in no
    result.  (When it is a draft, it is skipped like every draft.) *)
Theorem malformed_tag_raises (self : GitHubReleasesDataSource RepoInfo)
    (pdk : string) (s s1 : Session) (fuel : nat) (rs : list Release.t)
    (r : Release.t) :
  fetch fuel self s = Some (s1, Ok rs) ->
  In r rs ->
  Release.draft r = false ->
  Py.contains "-" (Release.tag_name r) = false ->
  (exists e, available fuel self pdk s = Some (s1, Raise e))
  /\ (forall rs1 rs2,
         rs = (rs1 ++ r :: rs2)%list ->
         (forall r', In r' rs1 ->
                     exists o, visit_release date_from_iso8601 pdk r' = Ok o) ->
         available fuel self pdk s
         = Some (s1, Raise (ValueError
                   "not enough values to unpack (expected 2, got 1)"))).
Proof.
  intros Hf Hin Hd Ht.
  rewrite (available_fetched _ _ _ _ _ _ self s s1 rs fuel pdk Hf).
  pose proof (visit_malformed date_from_iso8601 pdk r Hd Ht) as Hv.
  unfold process_releases. split.
  - destruct (collect_raise_In _ _ _ _ _ Hin Hv) as [e ->]. now exists e.
  - intros rs1 rs2 -> H1.
    now rewrite (collect_raise _ _ _ _ _ _ H1 Hv).
Qed.

End FilteringClaims.

(** The example of C2: of the three tags, only ["sky130-ef0123"] has the
    family ["sky130"]; ["sky130-extra-9999"] has the family
    ["sky130-extra"]. *)
Example family_filtering_example :
  Sim.get_available_versions 0 "sky130" Examples.families
  = Some (Sim.mkSession Examples.families [first_page], Ok [Examples.ef0123])
  /\ map (selected "sky130") Examples.families = [false; true; false]
  /\ Py.rsplit1 "-" "sky130-extra-9999" = ["sky130-extra"; "9999"].
Proof. repeat split; vm_compute; reflexivity. Qed.

Lemma malformed_tag_raises_witness :
  (exists e,
      Sim.get_available_versions 0 "sky130" Examples.with_malformed_tag
      = Some (Sim.mkSession Examples.with_malformed_tag [first_page], Raise e))
  /\ (forall rs1 rs2,
         Examples.with_malformed_tag
         = (rs1 ++ Examples.release "nightly" "2023-06-16T00:00:00Z" ""
                :: rs2)%list ->
         (forall r', In r' rs1 ->
                     exists o, visit_release Common.date_from_iso8601
                                 "sky130" r' = Ok o) ->
         Sim.get_available_versions 0 "sky130" Examples.with_malformed_tag
         = Some (Sim.mkSession Examples.with_malformed_tag [first_page],
                 Raise (ValueError
                   "not enough values to unpack (expected 2, got 1)"))).
Proof.
  apply (malformed_tag_raises GitHub.RepoInfo GitHub.id Sim.Session
           Sim.api_releases Common.date_from_iso8601 Common.Version_lt
           Sim.volare "sky130" (Sim.start Examples.with_malformed_tag)
           (Sim.mkSession Examples.with_malformed_tag [first_page]) 0
           Examples.with_malformed_tag
           (Examples.release "nightly" "2023-06-16T00:00:00Z" "")).
  - reflexivity.
  - simpl. right. left. reflexivity.
  - reflexivity.
  - reflexivity.
Defined.

(** C3, as the specification words it, fails: the release tagged
    ["nightly"] is not skipped; its presence makes the call fail, where the
    feed without it has a version of ["sky130"]. *)
Lemma malformed_tag_not_skipped :
  Sim.get_available_versions 0 "sky130" Examples.with_malformed_tag
  = Some (Sim.mkSession Examples.with_malformed_tag [first_page],
          Raise (ValueError "not enough values to unpack (expected 2, got 1)"))
  /\ Sim.get_available_versions 0 "sky130"
       [Examples.release "sky130-ef0123" "2023-06-15T00:00:00Z" ""]
     = Some (Sim.mkSession
               [Examples.release "sky130-ef0123" "2023-06-15T00:00:00Z" ""]
               [first_page],
             Ok [Examples.ef0123]).
Proof. split; vm_compute; reflexivity. Qed.

(** ** Ordering, the not-found error, drafts, and the tag of a version *)

Lemma StronglySorted_weaken {A : Type} (R1 R2 : A -> A -> Prop)
    (l : list A) :
  (forall a b, R1 a b -> R2 a b) -> StronglySorted R1 l -> StronglySorted R2 l.
Proof.
  intros H. induction 1 as [|x l Hl IH Hx]; constructor; [exact IH|].
  eapply Forall_impl; [|exact Hx]. intros b. apply H.
Qed.

Lemma Version_lt_asym (a b : Version.t) :
  Common.Version_lt a b = true -> Common.Version_lt b a = false.
Proof. apply datetime_ltb_asym. Qed.

Lemma Version_nlt_trans (a b c : Version.t) :
  Common.Version_lt b a = false -> Common.Version_lt c b = false ->
  Common.Version_lt c a = false.
Proof. apply datetime_nltb_trans. Qed.


Section ResultClaims.
Variable RepoInfo : Type.
Variable RepoInfo_id : RepoInfo -> string.
Variable Session : Type.
Variable api_releases :
  Session -> RepoInfo -> Params -> Session * Result (list Release.t).
Variable api_release_by_tag :
  Session -> RepoInfo -> string -> Session * Result Release.t.
Variable date_from_iso8601 : string -> Result datetime.t.
Variable Version_lt : Version.t -> Version.t -> bool.

Local Abbreviation fetch := (fetch_releases api_releases).
Local Abbreviation available :=
  (get_available_versions RepoInfo_id api_releases date_from_iso8601
     Version_lt).
Local Abbreviation process :=
  (process_releases RepoInfo_id date_from_iso8601 Version_lt).

Lemma process_nondraft (self : GitHubReleasesDataSource RepoInfo)
    (pdk : string) (rs : list Release.t) :
  process pdk self rs = process pdk self (filter nondraft rs).
Proof.
  unfold process_releases. now rewrite <- collect_nondraft.
Qed.

Lemma available_In (self : GitHubReleasesDataSource RepoInfo) (pdk : string)
    (s s1 : Session) (fuel : nat) (vs : list Version.t) :
  available fuel self pdk s = Some (s1, Ok vs) ->
  exists rs,
    fetch fuel self s = Some (s1, Ok rs)
    /\ forall v, In v vs ->
                 exists r, In r rs /\ built_from date_from_iso8601 pdk r v.
Proof.
  intros H. apply available_inv in H. destruct H as (rs & Hf & Hp).
  exists rs. split; [exact Hf|]. intros v Hv.
  apply process_Ok in Hp. destruct Hp as (vs0 & Hc & _ & _ & ->).
  apply sort_reverse_In in Hv. eapply collect_In; eassumption.
Qed.

(** Whatever [Version.__lt__] is, as long as it is asymmetric and its
    complement is transitive, no version of a returned list is smaller than
    a later one. *)
Lemma available_sorted (self : GitHubReleasesDataSource RepoInfo)
    (pdk : string) (s s1 : Session) (fuel : nat) (vs : list Version.t) :
  (forall a b, Version_lt a b = true -> Version_lt b a = false) ->
  (forall a b c, Version_lt b a = false -> Version_lt c b = false ->
                 Version_lt c a = false) ->
  available fuel self pdk s = Some (s1, Ok vs) ->
  StronglySorted (fun a b => Version_lt a b = false) vs.
Proof.
  intros Hasym Htrans H. apply available_inv in H.
  destruct H as (rs & _ & Hp).
  apply process_Ok in Hp. destruct Hp as (vs0 & _ & _ & _ & ->).
  now apply sort_reverse_sorted.
Qed.

(** C4.  Every list that [get_available_versions] returns is sorted newest
    first by the upload date: no version of the list is older than a later
    one.  The order of the versions is the one modelled from the
    specification, [Common.Version_lt]. *)
Theorem sorted_newest_first (self : GitHubReleasesDataSource RepoInfo)
    (pdk : string) (s s1 : Session) (fuel : nat) (vs : list Version.t) :
  get_available_versions RepoInfo_id api_releases date_from_iso8601
    Common.Version_lt fuel self pdk s = Some (s1, Ok vs) ->
  StronglySorted newer_or_same vs.
Proof.
  intros H. apply available_inv in H. destruct H as (rs & _ & Hp).
  apply process_Ok in Hp. destruct Hp as (vs0 & _ & _ & _ & ->).
  apply (StronglySorted_weaken (fun a b => Common.Version_lt a b = false)).
  - intros a b Hab. unfold newer_or_same, datetime.leb.
    unfold Common.Version_lt in Hab. now rewrite Hab.
  - apply sort_reverse_sorted;
      [apply Version_lt_asym | apply Version_nlt_trans].
Qed.

(** C6.  Drafts contribute nothing: the result of [get_available_versions]
    is the one that the fetched releases without the drafts give, and every
    version of a returned list is built from a release that is not a draft,
    whatever the tags of the drafts are. *)
Theorem drafts_excluded (self : GitHubReleasesDataSource RepoInfo)
    (pdk : string) (s s1 : Session) (fuel : nat) (rs : list Release.t) :
  fetch fuel self s = Some (s1, Ok rs) ->
  available fuel self pdk s
  = Some (s1, process pdk self (filter nondraft rs))
  /\ forall vs,
      available fuel self pdk s = Some (s1, Ok vs) ->
      forall v, In v vs ->
                exists r, In r rs /\ Release.draft r = false
                          /\ built_from date_from_iso8601 pdk r v.
Proof.
  intros Hf. split.
  - rewrite (available_fetched _ _ _ _ _ _ self s s1 rs fuel pdk Hf).
    now rewrite <- process_nondraft.
  - intros vs H v Hv. apply available_In in H.
    destruct H as (rs' & Hf' & Hall).
    rewrite Hf in Hf'. injection Hf' as <-.
    destruct (Hall v Hv) as (r & Hr & Hb).
    exists r. split; [exact Hr|]. split; [apply Hb | exact Hb].
Qed.

(** C10.  Every version [v] that [get_available_versions pdk] returns comes
    from a fetched release whose tag is [v.pdk ++ "-" ++ v.name], so that
    the request of [get_downloads_for_version v] is for the tag of that
    release. *)
Theorem tag_round_trip (self : GitHubReleasesDataSource RepoInfo)
    (pdk : string) (s s1 : Session) (fuel : nat) (vs : list Version.t) :
  available fuel self pdk s = Some (s1, Ok vs) ->
  exists rs,
    fetch fuel self s = Some (s1, Ok rs)
    /\ forall v, In v vs ->
        exists r,
          In r rs
          /\ built_from date_from_iso8601 pdk r v
          /\ Py.contains "-" (Release.tag_name r) = true
          /\ Version.pdk v ++ "-" ++ Version.name v = Release.tag_name r
          /\ release_tag_path v = "/releases/tags/" ++ Release.tag_name r
          /\ forall s2,
              get_downloads_for_version api_release_by_tag self v s2
              = match api_release_by_tag s2 (repo self)
                        ("/releases/tags/" ++ Release.tag_name r) with
                | (s3, Raise e) => (s3, Raise e)
                | (s3, Ok release) =>
                    (s3, Ok (zst_files_of (Release.assets release)))
                end.
Proof.
  intros H. apply available_In in H. destruct H as (rs & Hf & Hall).
  exists rs. split; [exact Hf|]. intros v Hv.
  destruct (Hall v Hv) as (r & Hr & Hb). exists r.
  split; [exact Hr|]. split; [exact Hb|].
  destruct Hb as (_ & [Ht Hh] & Hp & _).
  assert (E : Version.pdk v ++ "-" ++ Version.name v = Release.tag_name r)
    by (now rewrite Hp, Ht).
  assert (P : release_tag_path v = "/releases/tags/" ++ Release.tag_name r)
    by (unfold release_tag_path; now rewrite E).
  split; [|split; [exact E | split; [exact P|]]].
  - rewrite Ht, contains_append. simpl. apply orb_true_r.
  - intros s2. unfold get_downloads_for_version. now rewrite P.
Qed.

End ResultClaims.

Lemma sorted_newest_first_witness :
  Sim.get_available_versions 0 "sky130" Examples.three_dates
  = Some (Sim.mkSession Examples.three_dates [first_page],
          Ok [Examples.bbb; Examples.ccc; Examples.aaa])
  /\ StronglySorted newer_or_same [Examples.bbb; Examples.ccc; Examples.aaa].
Proof.
  assert (H : Sim.get_available_versions 0 "sky130" Examples.three_dates
              = Some (Sim.mkSession Examples.three_dates [first_page],
                      Ok [Examples.bbb; Examples.ccc; Examples.aaa]))
    by reflexivity.
  split; [exact H|].
  exact (sorted_newest_first GitHub.RepoInfo GitHub.id Sim.Session
           Sim.api_releases Common.date_from_iso8601 Sim.volare "sky130"
           (Sim.start Examples.three_dates)
           (Sim.mkSession Examples.three_dates [first_page]) 0
           [Examples.bbb; Examples.ccc; Examples.aaa] H).
Defined.

(** The example of C4: releases uploaded on 2021-01-01, 2023-06-15 and
    2022-03-10, in this feed order, are returned in the order 2023-06-15,
    2022-03-10, 2021-01-01. *)
Example sorted_newest_first_example :
  exists s' vs,
    Sim.get_available_versions 0 "sky130" Examples.three_dates
    = Some (s', Ok vs)
    /\ map Version.upload_date vs
       = [datetime.mk 2023 6 15 0 0 0; datetime.mk 2022 3 10 0 0 0;
          datetime.mk 2021 1 1 0 0 0].
Proof. do 2 eexists. split; reflexivity. Qed.

Lemma drafts_excluded_witness :
  Sim.get_available_versions 0 "sky130" Examples.with_draft
  = Some (Sim.mkSession Examples.with_draft [first_page],
          process_releases GitHub.id Common.date_from_iso8601
            Common.Version_lt "sky130" Sim.volare
            [Examples.release "sky130-ef0123" "2023-06-15T00:00:00Z" ""]).
Proof.
  exact (proj1 (drafts_excluded GitHub.RepoInfo GitHub.id Sim.Session
                  Sim.api_releases Common.date_from_iso8601
                  Common.Version_lt Sim.volare "sky130"
                  (Sim.start Examples.with_draft)
                  (Sim.mkSession Examples.with_draft [first_page]) 0
                  Examples.with_draft eq_refl)).
Defined.

(** The example of C6: the two drafts, one of the family asked for and one
    with a tag that has no ["-"], leave no trace in the result. *)
Example drafts_excluded_example :
  Sim.get_available_versions 0 "sky130" Examples.with_draft
  = Some (Sim.mkSession Examples.with_draft [first_page], Ok [Examples.ef0123]).
Proof. reflexivity. Qed.

Lemma tag_round_trip_witness :
  exists rs,
    fetch_releases Sim.api_releases 0 Sim.volare
      (Sim.start Examples.with_assets)
    = Some (Sim.mkSession Examples.with_assets [first_page], Ok rs)
    /\ forall v, In v [Examples.ef0123] ->
        exists r,
          In r rs
          /\ built_from Common.date_from_iso8601 "sky130" r v
          /\ Py.contains "-" (Release.tag_name r) = true
          /\ Version.pdk v ++ "-" ++ Version.name v = Release.tag_name r
          /\ release_tag_path v = "/releases/tags/" ++ Release.tag_name r
          /\ forall s2,
              get_downloads_for_version Sim.api_release_by_tag Sim.volare v s2
              = match Sim.api_release_by_tag s2 (repo Sim.volare)
                        ("/releases/tags/" ++ Release.tag_name r) with
                | (s3, Raise e) => (s3, Raise e)
                | (s3, Ok release) =>
                    (s3, Ok (zst_files_of (Release.assets release)))
                end.
Proof.
  apply (tag_round_trip GitHub.RepoInfo GitHub.id Sim.Session
           Sim.api_releases Sim.api_release_by_tag Common.date_from_iso8601
           Common.Version_lt Sim.volare "sky130"
           (Sim.start Examples.with_assets)
           (Sim.mkSession Examples.with_assets [first_page]) 0
           [Examples.ef0123]).
  reflexivity.
Defined.

(** The example of C10: the version of the release tagged
    ["sky130-ef0123"] is looked up under that tag, and the lookup finds the
    release and its archive. *)
Example tag_round_trip_example :
  Sim.get_downloads_for_version Examples.ef0123 Examples.with_assets
  = (Sim.mkSession Examples.with_assets
       [("/releases/tags/sky130-ef0123", None)],
     Ok [Examples.a_tar_zst]).
Proof. reflexivity. Qed.

(** ** Assets *)

Lemma zst_files_of_filter (assets : list AssetJson.t) :
  zst_files_of assets
  = map (fun a => Asset.mk (Py.slice_to_minus 8 (AssetJson.name a))
                    (AssetJson.name a) (AssetJson.browser_download_url a))
        (filter (fun a => Py.endswith (AssetJson.name a) ".tar.zst") assets).
Proof.
  induction assets as [|a assets IH]; simpl; [reflexivity|].
  destruct (Py.endswith (AssetJson.name a) ".tar.zst"); simpl;
    now rewrite IH.
Qed.

Lemma zst_files_of_suffix (assets : list AssetJson.t) (x : Asset.t) :
  In x (zst_files_of assets) ->
  Asset.filename x = Asset.content x ++ ".tar.zst".
Proof.
  rewrite zst_files_of_filter. intros H. apply in_map_iff in H.
  destruct H as (a & <- & Ha). apply filter_In in Ha. destruct Ha as [_ Ha].
  apply endswith_inv in Ha. destruct Ha as [stem E]. simpl. rewrite E.
  pose proof (slice_to_minus_append stem ".tar.zst") as S.
  change (String.length ".tar.zst") with 8 in S. now rewrite S.
Qed.

(** C8.  [get_downloads_for_version] keeps, in feed order, exactly the
    assets of the release whose name ends in [".tar.zst"]; the [content] of
    a kept asset is its name without that suffix; and a release none of
    whose assets is an archive gives the empty list, not an error. *)
Theorem asset_filtering (RepoInfo Session : Type)
    (api_release_by_tag :
       Session -> RepoInfo -> string -> Session * Result Release.t)
    (self : GitHubReleasesDataSource RepoInfo) (version : Version.t)
    (s s1 : Session) (release : Release.t) :
  api_release_by_tag s (repo self) (release_tag_path version)
  = (s1, Ok release) ->
  get_downloads_for_version api_release_by_tag self version s
  = (s1, Ok (map (fun a => Asset.mk (Py.slice_to_minus 8 (AssetJson.name a))
                             (AssetJson.name a)
                             (AssetJson.browser_download_url a))
                 (filter (fun a => Py.endswith (AssetJson.name a) ".tar.zst")
                         (Release.assets release))))
  /\ (forall a, Py.endswith (AssetJson.name a) ".tar.zst" = true <->
                exists stem, AssetJson.name a = stem ++ ".tar.zst")
  /\ (forall x, In x (zst_files_of (Release.assets release)) ->
                Asset.filename x = Asset.content x ++ ".tar.zst")
  /\ ((forall a, In a (Release.assets release) ->
                 Py.endswith (AssetJson.name a) ".tar.zst" = false) ->
      get_downloads_for_version api_release_by_tag self version s
      = (s1, Ok [])).
Proof.
  intros Hapi. unfold get_downloads_for_version. rewrite Hapi.
  split; [now rewrite zst_files_of_filter|].
  split; [|split; [apply zst_files_of_suffix|]].
  - intros a. split; [apply endswith_inv|].
    intros [stem ->]. apply endswith_append.
  - intros Hnone. rewrite zst_files_of_filter.
    replace (filter _ (Release.assets release)) with (@nil AssetJson.t);
      [reflexivity|].
    symmetry. induction (Release.assets release) as [|a l IH];
      [reflexivity|].
    simpl. rewrite (Hnone a (or_introl eq_refl)).
    apply IH. intros b Hb. apply Hnone. now right.
Qed.

Lemma asset_filtering_witness :
  Sim.get_downloads_for_version Examples.ef0123 Examples.with_assets
  = (Sim.mkSession Examples.with_assets
       [("/releases/tags/sky130-ef0123", None)],
     Ok [Asset.mk "a" "a.tar.zst" "https://example.org/a.tar.zst"]).
Proof.
  exact (proj1 (asset_filtering GitHub.RepoInfo Sim.Session
                  Sim.api_release_by_tag Sim.volare Examples.ef0123
                  (Sim.start Examples.with_assets)
                  (Sim.mkSession Examples.with_assets
                     [("/releases/tags/sky130-ef0123", None)])
                  (Release.mk false "sky130-ef0123" "2023-06-15T00:00:00Z"
                     (Some "") false Examples.assets)
                  eq_refl)).
Defined.

(** ** The default data source *)

Lemma set_default_of_split (RepoInfo : Type)
    (RepoInfo_from_id : string -> Result RepoInfo)
    (value cls_id target : string) :
  Py.split1 ":" value = [cls_id; target] ->
  __set_data_source_default RepoInfo_from_id (Some value)
  = if String.eqb "github-releases" cls_id
    then match RepoInfo_from_id target with
         | Ok repo => DefaultSet (GitHubReleases (mkGitHub repo))
         | Raise e => Uncaught e
         end
    else Exited
           ("[CRITICAL] CIEL_DATA_SOURCE defines unknown data source class '"
              ++ cls_id ++ "'")
           (-1).
Proof.
  intros H. unfold __set_data_source_default. rewrite H.
  cbn [List.length Nat.eqb negb dict_get factory construct].
  destruct (String.eqb "github-releases" cls_id); [|reflexivity].
  unfold construct, bind. now destruct (RepoInfo_from_id target).
Qed.

(** C9, as amended.  The value of the configuration is divided at its first
    [":"]: a value without [":"] is fatal, with the exit status -1; a value
    whose part before the first [":"] is not ["github-releases"] is fatal,
    with the exit status -1; and a value ["github-releases:" ++ target]
    selects the GitHub backend constructed from [target], whatever further
    [":"] the target has.  The default value is
    ["github-releases:efabless/volare"]. *)
Theorem default_selection (RepoInfo : Type)
    (RepoInfo_from_id : string -> Result RepoInfo) (value : string) :
  (Py.contains ":" value = false ->
   exists printed,
     __set_data_source_default RepoInfo_from_id (Some value)
     = Exited printed (-1))
  /\ (forall cls_id target,
         value = cls_id ++ ":" ++ target ->
         Py.contains ":" cls_id = false ->
         cls_id <> "github-releases" ->
         exists printed,
           __set_data_source_default RepoInfo_from_id (Some value)
           = Exited printed (-1))
  /\ (forall target,
         value = "github-releases:" ++ target ->
         __set_data_source_default RepoInfo_from_id (Some value)
         = match RepoInfo_from_id target with
           | Ok repo => DefaultSet (GitHubReleases (mkGitHub repo))
           | Raise e => Uncaught e
           end)
  /\ __set_data_source_default RepoInfo_from_id None
     = __set_data_source_default RepoInfo_from_id
         (Some "github-releases:efabless/volare").
Proof.
  split; [|split; [|split]].
  - intros H. unfold __set_data_source_default.
    rewrite (split1_absent _ _ H). simpl. eauto.
  - intros cls_id target -> Hc Hne.
    rewrite (set_default_of_split _ _ _ cls_id target)
      by (apply (split1_append ":" cls_id target Hc)).
    destruct (String.eqb_spec "github-releases" cls_id) as [E|_];
      [now elim Hne | eauto].
  - intros target ->.
    rewrite (set_default_of_split _ _ _ "github-releases" target)
      by (apply (split1_append ":" "github-releases" target eq_refl)).
    reflexivity.
  - reflexivity.
Qed.

Lemma default_selection_witness :
  (exists printed,
      __set_data_source_default GitHub.from_id (Some "no-colon-here")
      = Exited printed (-1))
  /\ (exists printed,
         __set_data_source_default GitHub.from_id (Some "bogus:x")
         = Exited printed (-1))
  /\ __set_data_source_default GitHub.from_id
       (Some "github-releases:efabless/volare")
     = DefaultSet (GitHubReleases Sim.volare).
Proof.
  split; [|split].
  - exact (proj1 (default_selection GitHub.RepoInfo GitHub.from_id
                    "no-colon-here") eq_refl).
  - refine (proj1 (proj2 (default_selection GitHub.RepoInfo GitHub.from_id
                            "bogus:x")) "bogus" "x" eq_refl eq_refl _).
    discriminate.
  - exact (proj1 (proj2 (proj2 (default_selection GitHub.RepoInfo
                                  GitHub.from_id
                                  "github-releases:efabless/volare")))
             "efabless/volare" eq_refl).
Defined.

(** The examples of C9. *)
Example default_selection_example :
  __set_data_source_default GitHub.from_id None
  = DefaultSet (GitHubReleases Sim.volare)
  /\ fatal (__set_data_source_default GitHub.from_id (Some "bogus:x"))
  /\ fatal (__set_data_source_default GitHub.from_id (Some "no-colon-here")).
Proof.
  split; [reflexivity|].
  split; do 2 eexists; (split; [reflexivity | discriminate]).
Qed.

(** C9, as the specification words it, fails: a value with a second
    separator is not fatal; the part after the first [":"], with its own
    [":"], is the argument of the backend. *)
Lemma extra_separator_accepted :
  __set_data_source_default GitHub.from_id
    (Some "github-releases:efabless/volare:extra")
  = DefaultSet (GitHubReleases
                  (mkGitHub (GitHub.mkRepoInfo "efabless" "volare:extra")))
  /\ ~ fatal (__set_data_source_default GitHub.from_id
                (Some "github-releases:efabless/volare:extra")).
Proof.
  split; [reflexivity|].
  intros (printed & status & H & _). discriminate H.
Qed.

(** ** The commit date *)

Section RegexFacts.

Lemma strip_prefix_sound (p s rest : string) :
  Py.strip_prefix p s = Some rest -> s = p ++ rest.
Proof.
  revert s. induction p as [|a p IH]; intros [|b s]; simpl; try discriminate.
  - now intros [= <-].
  - now intros [= <-].
  - destruct (Ascii.eqb_spec a b) as [<-|]; [|discriminate].
    intros H. now rewrite (IH _ H).
Qed.

Lemma strip_prefix_append (p rest : string) :
  Py.strip_prefix p (p ++ rest) = Some rest.
Proof.
  induction p as [|a p IH]; simpl; [reflexivity|].
  now rewrite Ascii.eqb_refl.
Qed.












End RegexFacts.

Section CommitDateClaims.
Variable RepoInfo : Type.
Variable RepoInfo_id : RepoInfo -> string.
Variable Session : Type.
Variable api_releases :
  Session -> RepoInfo -> Params -> Session * Result (list Release.t).
Variable date_from_iso8601 : string -> Result datetime.t.
Variable Version_lt : Version.t -> Version.t -> bool.

Local Abbreviation fetch := (fetch_releases api_releases).
Local Abbreviation available :=
  (get_available_versions RepoInfo_id api_releases date_from_iso8601
     Version_lt).


Lemma extract_commit_date_None (text : string) :
  commit_rx_search text = None ->
  extract_commit_date date_from_iso8601 (Some text) = Ok None.
Proof. unfold extract_commit_date. simpl. now intros ->. Qed.

Lemma extract_commit_date_Some (text g : string) (d : datetime.t) :
  commit_rx_search text = Some g -> date_from_iso8601 g = Ok d ->
  extract_commit_date date_from_iso8601 (Some text) = Ok (Some d).
Proof. unfold extract_commit_date. simpl. now intros -> ->. Qed.



End CommitDateClaims.

(* ===================================================================== *)
(** * Further properties of the code *)

(** ** The pagination, on a scripted session *)

Section ScriptedPagination.
Variable RepoInfo : Type.
Variable RepoInfo_id : RepoInfo -> string.
Variable date_from_iso8601 : string -> Result datetime.t.
Variable Version_lt : Version.t -> Version.t -> bool.
Variable self : GitHubReleasesDataSource RepoInfo.

Local Abbreviation api := (@Script.api_releases RepoInfo).
Local Abbreviation p1 := {| page := 1; per_page := 100 |}.

Lemma fetch_more_script (full : list (list Release.t))
    (final : Result (list Release.t)) (rest : list (Result (list Release.t))) :
  Forall (fun p => List.length p = 100) full ->
  Script.ends final ->
  forall (fuel : nat) (reqs : list Params) (page : Z)
         (last releases : list Release.t),
    List.length last = 100 ->
    List.length full + 1 <= fuel ->
    fetch_more api fuel self
      (Script.mk (map Ok full ++ final :: rest) reqs) page last releases
    = Some (Script.mk rest (reqs ++ repeat p1 (List.length full + 1)),
            Script.outcome (releases ++ concat full) final).
Proof.
  intros Hfull Hend. induction Hfull as [|p full Hp Hfull IH];
    intros fuel reqs page last releases Hlast Hfuel;
    (destruct fuel as [|fuel]; [simpl in Hfuel; lia|]);
    cbn [fetch_more]; rewrite Hlast; cbn [Nat.eqb];
    change (Nat.eqb 99 99) with true; cbn iota.
  - simpl. rewrite app_nil_r.
    destruct final as [short|e]; [|reflexivity].
    simpl in Hend. apply Nat.eqb_neq in Hend.
    destruct fuel; simpl; now rewrite Hend.
  - simpl (map _ _ ++ _)%list. unfold Script.api_releases at 1.
    cbn [Script.pending Script.requests].
    rewrite (IH fuel (reqs ++ [p1])%list (page + 1)%Z p (releases ++ p)%list Hp)
      by (simpl in Hfuel; lia).
    rewrite concat_cons, <- !app_assoc.
    replace (List.length (p :: full) + 1) with (S (List.length full + 1))
      by (simpl; lia).
    reflexivity.
Qed.

Lemma fetch_releases_script (full : list (list Release.t))
    (final : Result (list Release.t)) (rest : list (Result (list Release.t)))
    (fuel : nat) :
  Forall (fun p => List.length p = 100) full ->
  Script.ends final ->
  List.length full <= fuel ->
  fetch_releases api fuel self (Script.mk (map Ok full ++ final :: rest) [])
  = Some (Script.mk rest (repeat p1 (List.length full + 1)),
          Script.outcome (concat full) final).
Proof.
  intros Hfull Hend Hfuel. unfold fetch_releases.
  destruct Hfull as [|p full Hp Hfull].
  - simpl. destruct final as [short|e]; [|reflexivity].
    simpl in Hend. apply Nat.eqb_neq in Hend.
    destruct fuel; simpl; now rewrite Hend.
  - simpl (map _ _ ++ _)%list. unfold Script.api_releases at 1.
    cbn [Script.pending Script.requests app].
    rewrite (fetch_more_script full final rest Hfull Hend fuel [p1] 1 p p Hp)
      by (simpl in Hfuel; lia).
    replace (List.length (p :: full) + 1) with (S (List.length full + 1))
      by (simpl; lia).
    reflexivity.
Qed.

(** X1.  Whatever the session answers, every request of
    [get_available_versions] is for page 1 of 100 items; the call goes on
    while the answers are full pages and stops at the first answer that is
    not; and the releases it processes are the answers it got, one after
    the other. *)
Theorem pagination_on_script (full : list (list Release.t))
    (short : list Release.t) (rest : list (Result (list Release.t)))
    (fuel : nat) (pdk : string) :
  Forall (fun p => List.length p = 100) full ->
  List.length short <> 100 ->
  List.length full <= fuel ->
  fetch_releases api fuel self
    (Script.mk (map Ok full ++ Ok short :: rest) [])
  = Some (Script.mk rest (repeat p1 (List.length full + 1)),
          Ok (concat full ++ short)%list)
  /\ get_available_versions RepoInfo_id api date_from_iso8601 Version_lt
       fuel self pdk (Script.mk (map Ok full ++ Ok short :: rest) [])
     = Some (Script.mk rest (repeat p1 (List.length full + 1)),
             process_releases RepoInfo_id date_from_iso8601 Version_lt pdk
               self (concat full ++ short)%list).
Proof.
  intros Hfull Hshort Hfuel.
  pose proof (fetch_releases_script full (Ok short) rest fuel Hfull Hshort
                Hfuel) as H.
  split; [exact H|]. now apply available_fetched.
Qed.

(** X2.  An error of the session is not caught: when the session answers
    with full pages and then raises, [get_available_versions] raises that
    very error, after one request per answer, and no release is
    processed. *)
Theorem session_error_propagates (full : list (list Release.t)) (e : exn)
    (rest : list (Result (list Release.t))) (fuel : nat) (pdk : string) :
  Forall (fun p => List.length p = 100) full ->
  List.length full <= fuel ->
  get_available_versions RepoInfo_id api date_from_iso8601 Version_lt
    fuel self pdk (Script.mk (map Ok full ++ Raise e :: rest) [])
  = Some (Script.mk rest (repeat p1 (List.length full + 1)), Raise e).
Proof.
  intros Hfull Hfuel. unfold get_available_versions.
  now rewrite (fetch_releases_script full (Raise e) rest fuel Hfull I Hfuel).
Qed.

End ScriptedPagination.

Lemma pagination_on_script_witness :
  fetch_releases (@Script.api_releases GitHub.RepoInfo) 1 Sim.volare
    (Script.mk (map Ok MoreExamples.one_page ++ [Ok []]) [])
  = Some (Script.mk [] (repeat {| page := 1; per_page := 100 |} 2),
          Ok (concat MoreExamples.one_page ++ [])%list).
Proof.
  refine (proj1 (pagination_on_script GitHub.RepoInfo GitHub.id
                   Common.date_from_iso8601 Common.Version_lt Sim.volare
                   MoreExamples.one_page [] [] 1 "sky130" _ _ _)).
  - repeat constructor.
  - discriminate.
  - simpl. lia.
Defined.

Lemma session_error_propagates_witness :
  get_available_versions GitHub.id (@Script.api_releases GitHub.RepoInfo)
    Common.date_from_iso8601 Common.Version_lt 1 Sim.volare "sky130"
    (Script.mk (map Ok MoreExamples.one_page ++ [Raise (HTTPStatusError 403)])
       [])
  = Some (Script.mk [] (repeat {| page := 1; per_page := 100 |} 2),
          Raise (HTTPStatusError 403)).
Proof.
  refine (session_error_propagates GitHub.RepoInfo GitHub.id
            Common.date_from_iso8601 Common.Version_lt Sim.volare
            MoreExamples.one_page (HTTPStatusError 403) [] 1 "sky130" _ _).
  - repeat constructor.
  - simpl. lia.
Defined.

Lemma pagination_short_feed_witness :
  exists s',
    fetch_releases Sim.api_releases 0 Sim.volare
      (Sim.start Examples.families)
    = Some (s', Ok Examples.families)
    /\ Sim.get_available_versions 0 "sky130" Examples.families
       = Some (s', process_releases GitHub.id Common.date_from_iso8601
                     Common.Version_lt "sky130" Sim.volare Examples.families)
    /\ Sim.log s' = [first_page]
    /\ Sim.page_requests s' = 1
    /\ Sim.page_requests s' = List.length Examples.families / 100 + 1.
Proof.
  apply (pagination_short_feed "sky130" Examples.families 0).
  simpl. lia.
Defined.

(** ** Ties in the order of the versions *)

Section StableSort.
Context {A : Type} (lt : A -> A -> bool).
Hypothesis nlt_trans :
  forall a b c, lt b a = false -> lt c b = false -> lt c a = false.

Lemma tie_not_smaller (x y z : A) :
  lt z y = true -> tie lt x y = true -> tie lt x z = false.
Proof.
  unfold tie. intros Hzy Hxy.
  apply andb_true_iff in Hxy. destruct Hxy as [Hxy Hyx].
  apply negb_true_iff in Hxy. apply negb_true_iff in Hyx.
  destruct (lt x z) eqn:Hxz; [reflexivity|].
  destruct (lt z x) eqn:Hzx; [apply andb_false_r|].
  rewrite (nlt_trans y x z Hxy Hzx) in Hzy. discriminate.
Qed.

Lemma insert_stable_filter (x y : A) (l : list A) :
  filter (tie lt x) (insert_stable lt y l) = filter (tie lt x) (y :: l).
Proof.
  induction l as [|z l IH]; [reflexivity|].
  cbn [insert_stable]. destruct (lt z y) eqn:Hzy; [|reflexivity].
  cbn [filter] in *. rewrite IH.
  destruct (tie lt x y) eqn:Hxy; [|reflexivity].
  now rewrite (tie_not_smaller x y z Hzy Hxy).
Qed.

Lemma stable_sort_filter (x : A) (l : list A) :
  filter (tie lt x) (stable_sort lt l) = filter (tie lt x) l.
Proof.
  induction l as [|y l IH]; [reflexivity|].
  cbn [stable_sort]. rewrite insert_stable_filter. cbn [filter].
  now rewrite IH.
Qed.

(** [sort(reverse=True)] is stable: the elements that tie with [x] keep the
    order they had. *)
Lemma sort_reverse_stable (x : A) (l : list A) :
  filter (tie lt x) (sort_reverse lt l) = filter (tie lt x) l.
Proof.
  unfold sort_reverse.
  now rewrite filter_rev, stable_sort_filter, filter_rev, rev_involutive.
Qed.

End StableSort.

(** X4.  Versions that tie in the order keep their feed order: for every
    version [x], the versions of a returned list that tie with [x] are, in
    this order, the versions that the loop built from the selected
    releases of the feed and that tie with [x].  [Version.__lt__] may be
    any strict weak order: asymmetric, with a transitive complement (the
    comparisons for which the result of [list.sort] is determined). *)
Theorem ties_keep_feed_order (RepoInfo : Type)
    (RepoInfo_id : RepoInfo -> string) (Session : Type)
    (api_releases :
       Session -> RepoInfo -> Params -> Session * Result (list Release.t))
    (date_from_iso8601 : string -> Result datetime.t)
    (Version_lt : Version.t -> Version.t -> bool)
    (self : GitHubReleasesDataSource RepoInfo) (pdk : string)
    (s s1 : Session) (fuel : nat) (vs : list Version.t) :
  (forall a b, Version_lt a b = true -> Version_lt b a = false) ->
  (forall a b c, Version_lt b a = false -> Version_lt c b = false ->
                 Version_lt c a = false) ->
  get_available_versions RepoInfo_id api_releases date_from_iso8601
    Version_lt fuel self pdk s = Some (s1, Ok vs) ->
  exists rs built,
    fetch_releases api_releases fuel self s = Some (s1, Ok rs)
    /\ Forall2 (built_from date_from_iso8601 pdk)
               (filter (selected pdk) rs) built
    /\ forall x, filter (tie Version_lt x) vs
                 = filter (tie Version_lt x) built.
Proof.
  intros _ Htrans H. apply available_inv in H.
  destruct H as (rs & Hf & Hp).
  apply process_Ok in Hp. destruct Hp as (built & Hc & _ & _ & ->).
  exists rs, built. split; [exact Hf|].
  split; [now apply collect_Forall2|].
  intros x. now apply sort_reverse_stable.
Qed.

Lemma ties_keep_feed_order_witness :
  Sim.get_available_versions 0 "sky130" MoreExamples.tied
  = Some (Sim.mkSession MoreExamples.tied [first_page],
          Ok [MoreExamples.newer; MoreExamples.first; MoreExamples.second])
  /\ exists rs built,
      fetch_releases Sim.api_releases 0 Sim.volare
        (Sim.start MoreExamples.tied)
      = Some (Sim.mkSession MoreExamples.tied [first_page], Ok rs)
      /\ Forall2 (built_from Common.date_from_iso8601 "sky130")
                 (filter (selected "sky130") rs) built
      /\ forall x,
          filter (tie Common.Version_lt x)
            [MoreExamples.newer; MoreExamples.first; MoreExamples.second]
          = filter (tie Common.Version_lt x) built.
Proof.
  assert (H : Sim.get_available_versions 0 "sky130" MoreExamples.tied
              = Some (Sim.mkSession MoreExamples.tied [first_page],
                      Ok [MoreExamples.newer; MoreExamples.first;
                          MoreExamples.second])) by reflexivity.
  split; [exact H|].
  exact (ties_keep_feed_order GitHub.RepoInfo GitHub.id Sim.Session
           Sim.api_releases Common.date_from_iso8601 Common.Version_lt
           Sim.volare "sky130" (Sim.start MoreExamples.tied)
           (Sim.mkSession MoreExamples.tied [first_page]) 0
           [MoreExamples.newer; MoreExamples.first; MoreExamples.second]
           Version_lt_asym Version_nlt_trans H).
Defined.

(** ** What the loop reads, and which error it raises *)

Section LoopReads.
Variable RepoInfo : Type.
Variable RepoInfo_id : RepoInfo -> string.
Variable Session : Type.
Variable api_releases :
  Session -> RepoInfo -> Params -> Session * Result (list Release.t).
Variable date_from_iso8601 : string -> Result datetime.t.
Variable Version_lt : Version.t -> Version.t -> bool.

Local Abbreviation fetch := (fetch_releases api_releases).
Local Abbreviation available :=
  (get_available_versions RepoInfo_id api_releases date_from_iso8601
     Version_lt).
Local Abbreviation process :=
  (process_releases RepoInfo_id date_from_iso8601 Version_lt).
Local Abbreviation visit := (visit_release date_from_iso8601).
Local Abbreviation collect := (collect_versions date_from_iso8601).

Lemma visit_unselected (pdk : string) (r : Release.t) :
  selected pdk r = false ->
  Release.draft r = true \/ Py.contains "-" (Release.tag_name r) = true ->
  visit pdk r = Ok None.
Proof.
  unfold selected, visit_release. intros Hs Hr.
  destruct (Release.draft r); [reflexivity|].
  destruct Hr as [Hr|Hr]; [discriminate|].
  destruct (contains_last _ _ Hr) as (a & b & E & Hb).
  rewrite E, (rsplit1_append _ _ _ Hb) in *. simpl in *.
  now rewrite Hs.
Qed.

Lemma collect_selected (pdk : string) (rs : list Release.t) :
  (forall r, In r rs -> Release.draft r = false ->
             Py.contains "-" (Release.tag_name r) = true) ->
  forall acc,
    collect pdk rs acc = collect pdk (filter (selected pdk) rs) acc.
Proof.
  induction rs as [|r rs IH]; intros Hrs acc; [reflexivity|].
  assert (Hrs' : forall r', In r' rs -> Release.draft r' = false ->
                            Py.contains "-" (Release.tag_name r') = true)
    by (intros; apply Hrs; [now right | assumption]).
  cbn [filter]. destruct (selected pdk r) eqn:Hs.
  - cbn [collect_versions].
    destruct (visit pdk r) as [[v|]|e]; [now apply IH | now apply IH |].
    reflexivity.
  - cbn [collect_versions]. rewrite visit_unselected; [now apply IH | exact Hs |].
    destruct (Release.draft r) eqn:Hd; [now left | right].
    apply Hrs; [now left | exact Hd].
Qed.

Lemma visit_bad_published (pdk : string) (r : Release.t) (e : exn) :
  selected pdk r = true ->
  date_from_iso8601 (Release.published_at r) = Raise e ->
  visit pdk r = Raise e.
Proof.
  unfold selected, visit_release. intros Hs He.
  apply andb_true_iff in Hs. destruct Hs as [Hd Hf].
  apply negb_true_iff in Hd. rewrite Hd.
  destruct (Py.rsplit1 "-" (Release.tag_name r)) as [|a [|b [|c l]]];
    try discriminate.
  simpl. rewrite Hf. simpl. now rewrite He.
Qed.

(** X5.  When every release that is not a draft has a ["-"] in its tag, the
    result for [pdk] is the result for the feed reduced to the selected
    releases: of the releases of another family only the draft flag and the
    tag are read, so that their dates and bodies, whatever they are, cannot
    make the call fail. *)
Theorem other_families_not_parsed (self : GitHubReleasesDataSource RepoInfo)
    (pdk : string) (s s1 : Session) (fuel : nat) (rs : list Release.t) :
  fetch fuel self s = Some (s1, Ok rs) ->
  (forall r, In r rs -> Release.draft r = false ->
             Py.contains "-" (Release.tag_name r) = true) ->
  available fuel self pdk s
  = Some (s1, process pdk self (filter (selected pdk) rs)).
Proof.
  intros Hf Hrs.
  rewrite (available_fetched _ _ _ _ _ _ self s s1 rs fuel pdk Hf).
  unfold process_releases. now rewrite <- collect_selected.
Qed.

(** X6.  The loop fails fast, in feed order: when the releases before [r]
    are drafts or well formed, and [r] is selected and has a publication
    date that the parser rejects, the call raises the error of the parser
    for that date; the body of [r] and the releases after [r] are not
    looked at. *)
Theorem first_error_wins (self : GitHubReleasesDataSource RepoInfo)
    (pdk : string) (s s1 : Session) (fuel : nat)
    (rs1 rs2 : list Release.t) (r : Release.t) (e : exn) :
  fetch fuel self s = Some (s1, Ok (rs1 ++ r :: rs2)%list) ->
  (forall r', In r' rs1 ->
              Release.draft r' = true \/ well_formed date_from_iso8601 r') ->
  selected pdk r = true ->
  date_from_iso8601 (Release.published_at r) = Raise e ->
  available fuel self pdk s = Some (s1, Raise e).
Proof.
  intros Hf H1 Hs He.
  rewrite (available_fetched _ _ _ _ _ _ self s s1 _ fuel pdk Hf).
  unfold process_releases.
  rewrite (collect_raise date_from_iso8601 pdk rs1 rs2 r e); [reflexivity| |].
  - intros r' Hr'. destruct (H1 r' Hr') as [Hd|Hw].
    + exists None. now apply visit_draft.
    + now apply visit_well_formed.
  - now apply visit_bad_published.
Qed.

End LoopReads.

Lemma other_families_not_parsed_witness :
  Sim.get_available_versions 0 "sky130" MoreExamples.other_family_garbage
  = Some (Sim.mkSession MoreExamples.other_family_garbage [first_page],
          process_releases GitHub.id Common.date_from_iso8601
            Common.Version_lt "sky130" Sim.volare
            [Examples.release "sky130-ef0123" "2023-06-15T00:00:00Z" ""]).
Proof.
  refine (other_families_not_parsed GitHub.RepoInfo GitHub.id Sim.Session
            Sim.api_releases Common.date_from_iso8601 Common.Version_lt
            Sim.volare "sky130" (Sim.start MoreExamples.other_family_garbage)
            (Sim.mkSession MoreExamples.other_family_garbage [first_page]) 0
            MoreExamples.other_family_garbage eq_refl _).
  intros r [<-|[<-|[]]] _; reflexivity.
Defined.

Lemma first_error_wins_witness :
  Sim.get_available_versions 0 "sky130" MoreExamples.bad_published
  = Some (Sim.mkSession MoreExamples.bad_published [first_page],
          Raise (Common.bad_time_data "yesterday")).
Proof.
  refine (first_error_wins GitHub.RepoInfo GitHub.id Sim.Session
            Sim.api_releases Common.date_from_iso8601 Common.Version_lt
            Sim.volare "sky130" (Sim.start MoreExamples.bad_published)
            (Sim.mkSession MoreExamples.bad_published [first_page]) 0
            [Examples.release "sky130-ef0123" "2023-06-15T00:00:00Z" ""]
            [Examples.badly_annotated]
            (Examples.release "sky130-bad" "yesterday" "")
            (Common.bad_time_data "yesterday") eq_refl _ eq_refl eq_refl).
  intros r' [<-|[]]. right.
  split; [reflexivity | split; eexists; reflexivity].
Defined.

(** ** The registry, once more *)

Lemma contains_first (sep : ascii) (s : string) :
  Py.contains sep s = true ->
  exists a b, s = a ++ String sep b /\ Py.contains sep a = false.
Proof.
  induction s as [|c s IH]; simpl; intros H; [discriminate|].
  destruct (Ascii.eqb_spec c sep) as [->|Hc].
  - now exists "", s.
  - simpl in H. destruct (IH H) as (a & b & -> & Ha).
    exists (String c a), b. split; [reflexivity|].
    simpl. apply Ascii.eqb_neq in Hc. now rewrite Hc.
Qed.

(** X7.  The start-up exits (with the status -1) exactly for the values of
    the configuration that do not begin with ["github-releases:"]: the
    class before the first [":"] is compared as it is, with no trimming and
    no folding of case, and nothing else is looked at. *)
Theorem fatal_iff_no_backend_prefix (RepoInfo : Type)
    (RepoInfo_from_id : string -> Result RepoInfo) (value : string) :
  (fatal (__set_data_source_default RepoInfo_from_id (Some value))
   <-> Py.strip_prefix "github-releases:" value = None)
  /\ (forall printed code,
         __set_data_source_default RepoInfo_from_id (Some value)
         = Exited printed code -> code = (-1)%Z).
Proof.
  destruct (Py.contains ":" value) eqn:Hc.
  - destruct (contains_first _ _ Hc) as (a & b & -> & Ha).
    rewrite (set_default_of_split _ _ _ a b)
      by (apply (split1_append ":" a b Ha)).
    destruct (String.eqb_spec "github-releases" a) as [<-|Hne].
    + change ("github-releases" ++ String ":" b)
        with ("github-releases:" ++ b).
      rewrite strip_prefix_append. split.
      * split; [|discriminate].
        intros (printed & code & H & _).
        destruct (RepoInfo_from_id b); discriminate.
      * intros printed code H.
        destruct (RepoInfo_from_id b); discriminate.
    + split.
      * split.
        -- intros _.
           destruct (Py.strip_prefix "github-releases:" (a ++ String ":" b))
             as [rest|] eqn:E; [|reflexivity].
           apply strip_prefix_sound in E.
           change ("github-releases:" ++ rest)
             with ("github-releases" ++ String ":" rest) in E.
           pose proof (split1_append ":" a b Ha) as S1.
           rewrite E, (split1_append ":" "github-releases" rest eq_refl) in S1.
           injection S1 as S1 _. now elim Hne.
        -- intros _. do 2 eexists. split; [reflexivity | discriminate].
      * intros printed code [= _ <-]. reflexivity.
  - assert (E : exists printed,
               __set_data_source_default RepoInfo_from_id (Some value)
               = Exited printed (-1)).
    { unfold __set_data_source_default.
      rewrite (split1_absent _ _ Hc). simpl. eauto. }
    destruct E as [printed E]. rewrite E. split.
    + split.
      * intros _.
        destruct (Py.strip_prefix "github-releases:" value) as [rest|] eqn:S1;
          [|reflexivity].
        apply strip_prefix_sound in S1. subst value.
        rewrite contains_append in Hc. discriminate.
      * intros _. do 2 eexists. split; [reflexivity | discriminate].
    + intros printed' code [= _ <-]. reflexivity.
Qed.

(** ** The assets, once more *)

Lemma NoDup_map_filter {A B : Type} (h : A -> B) (g : A -> bool)
    (l : list A) :
  NoDup (map h l) -> NoDup (map h (filter g l)).
Proof.
  induction l as [|a l IH]; simpl; intros H; [constructor|].
  inversion H as [|x xs Hnotin Hnd]; subst.
  destruct (g a); [|now apply IH].
  simpl. constructor; [|now apply IH].
  intros Hin. apply Hnotin. apply in_map_iff in Hin.
  destruct Hin as (b & Hb & Hin). apply filter_In in Hin.
  apply in_map_iff. exists b. tauto.
Qed.

Lemma NoDup_map_through {A B C : Type} (h : A -> B) (k : A -> C)
    (l : list A) :
  (forall a b, In a l -> In b l -> k a = k b -> h a = h b) ->
  NoDup (map h l) -> NoDup (map k l).
Proof.
  induction l as [|a l IH]; simpl; intros Hk H; [constructor|].
  inversion H as [|x xs Hnotin Hnd]; subst.
  constructor.
  - intros Hin. apply Hnotin. apply in_map_iff in Hin.
    destruct Hin as (b & Hb & Hin). apply in_map_iff. exists b.
    split; [|exact Hin]. apply Hk; [now right | now left | exact Hb].
  - apply IH; [|exact Hnd]. intros x y Hx Hy. apply Hk; now right.
Qed.

(** X8.  When the assets of the release have different names, the assets
    that [get_downloads_for_version] returns have different [content]
    names (and different file names): stripping the suffix never makes two
    archives collide. *)
Theorem contents_distinct (RepoInfo Session : Type)
    (api_release_by_tag :
       Session -> RepoInfo -> string -> Session * Result Release.t)
    (self : GitHubReleasesDataSource RepoInfo) (version : Version.t)
    (s s1 : Session) (release : Release.t) :
  api_release_by_tag s (repo self) (release_tag_path version)
  = (s1, Ok release) ->
  NoDup (map AssetJson.name (Release.assets release)) ->
  exists files,
    get_downloads_for_version api_release_by_tag self version s
    = (s1, Ok files)
    /\ NoDup (map Asset.content files)
    /\ NoDup (map Asset.filename files).
Proof.
  intros Hapi Hnd. unfold get_downloads_for_version. rewrite Hapi.
  exists (zst_files_of (Release.assets release)).
  split; [reflexivity|].
  assert (Hf : NoDup (map Asset.filename
                        (zst_files_of (Release.assets release)))).
  { rewrite zst_files_of_filter, map_map. simpl.
    now apply NoDup_map_filter. }
  split; [|exact Hf].
  apply (NoDup_map_through Asset.filename); [|exact Hf].
  intros a b Ha Hb E.
  rewrite (zst_files_of_suffix _ _ Ha), (zst_files_of_suffix _ _ Hb).
  now rewrite E.
Qed.

Lemma contents_distinct_witness :
  exists files,
    Sim.get_downloads_for_version Examples.ef0123 Examples.with_assets
    = (Sim.mkSession Examples.with_assets
         [("/releases/tags/sky130-ef0123", None)],
       Ok files)
    /\ NoDup (map Asset.content files)
    /\ NoDup (map Asset.filename files).
Proof.
  refine (contents_distinct GitHub.RepoInfo Sim.Session
            Sim.api_release_by_tag Sim.volare Examples.ef0123
            (Sim.start Examples.with_assets)
            (Sim.mkSession Examples.with_assets
               [("/releases/tags/sky130-ef0123", None)])
            (Release.mk false "sky130-ef0123" "2023-06-15T00:00:00Z"
               (Some "") false Examples.assets)
            eq_refl _).
  simpl. repeat constructor; simpl; intuition discriminate.
Defined.

(** ** From the list of versions to the assets *)

Lemma append_inj_l (p a b : string) : p ++ a = p ++ b -> a = b.
Proof.
  induction p as [|c p IH]; simpl; [trivial|].
  intros [= H]. now apply IH.
Qed.

(** X9.  On a simulated feed the two operations compose: every version
    that [get_available_versions] lists can be looked up by
    [get_downloads_for_version], whose one request, for the tag
    [pdk ++ "-" ++ name], finds a release of the feed with that tag and
    returns its archives; the lookup of a listed version never fails. *)
Theorem listed_version_is_found (feed : list Release.t) (pdk : string)
    (fuel : nat) (s' : Sim.Session) (vs : list Version.t) (v : Version.t) :
  Sim.get_available_versions fuel pdk feed = Some (s', Ok vs) ->
  In v vs ->
  exists r,
    In r feed
    /\ Release.tag_name r = pdk ++ "-" ++ Version.name v
    /\ Sim.get_downloads_for_version v feed
       = (Sim.mkSession feed
            [("/releases/tags/" ++ pdk ++ "-" ++ Version.name v, None)],
          Ok (zst_files_of (Release.assets r))).
Proof.
  intros H Hv.
  destruct (Nat.lt_ge_cases (List.length feed) 100) as [Hlen|Hlen];
    [|rewrite sim_available_full in H by exact Hlen; discriminate].
  unfold Sim.get_available_versions in H.
  apply available_In in H. destruct H as (rs & Hf & Hall).
  rewrite sim_fetch_short in Hf by exact Hlen. injection Hf as _ <-.
  destruct (Hall v Hv) as (r & Hr & _ & [Ht _] & Hp & _).
  unfold Sim.get_downloads_for_version, get_downloads_for_version,
    Sim.api_release_by_tag, release_tag_path.
  rewrite Hp. cbn [Sim.feed Sim.log Sim.start app].
  destruct (find _ feed) as [r0|] eqn:Hfind.
  - apply find_some in Hfind. destruct Hfind as [Hin0 Heq].
    apply String.eqb_eq in Heq. apply append_inj_l in Heq.
    exists r0. split; [exact Hin0|]. split; [now rewrite <- Heq|].
    reflexivity.
  - exfalso. pose proof (find_none _ _ Hfind r Hr) as Hn.
    simpl in Hn. rewrite Ht in Hn. now rewrite String.eqb_refl in Hn.
Qed.

Lemma listed_version_is_found_witness :
  exists r,
    In r Examples.with_assets
    /\ Release.tag_name r = "sky130" ++ "-" ++ Version.name Examples.ef0123
    /\ Sim.get_downloads_for_version Examples.ef0123 Examples.with_assets
       = (Sim.mkSession Examples.with_assets
            [("/releases/tags/" ++ "sky130" ++ "-"
                ++ Version.name Examples.ef0123, None)],
          Ok (zst_files_of (Release.assets r))).
Proof.
  exact (listed_version_is_found Examples.with_assets "sky130" 0
           (Sim.mkSession Examples.with_assets [first_page])
           [Examples.ef0123] Examples.ef0123 eq_refl (or_introl eq_refl)).
Defined.

(** ** The command [ls-remote] *)

Lemma append_nl_nonempty (a b : string) : a ++ nl ++ b <> "".
Proof. destruct a; discriminate. Qed.

Lemma print_names_empty (vs : list Version.t) :
  print_names vs = "" -> vs = [].
Proof.
  destruct vs as [|v vs]; [reflexivity|].
  simpl. intros H. now apply append_nl_nonempty in H.
Qed.

Section ListRemoteFacts.
Variable RepoInfo : Type.
Variable RepoInfo_id : RepoInfo -> string.
Variable Session : Type.
Variable api_releases :
  Session -> RepoInfo -> Params -> Session * Result (list Release.t).
Variable date_from_iso8601 : string -> Result datetime.t.
Variable Version_lt : Version.t -> Version.t -> bool.
Variable print_remote_list : string -> string -> list Version.t -> string.
Variable console_print : string -> string.
Variable str_httpx : exn -> string.
Variable traceback : exn -> string.

Local Abbreviation listing :=
  (DataSource_get_available_versions RepoInfo_id api_releases
     date_from_iso8601 Version_lt).
Local Abbreviation ls_remote :=
  (list_remote_cmd RepoInfo_id api_releases date_from_iso8601 Version_lt
     print_remote_list console_print str_httpx traceback).

(** X10.  When its output is not a terminal, [ls-remote] ends in one of
    three ways: with the status 0, nothing on the standard error and, on
    the standard output, the names of the listed versions, one per line
    and at least one; or, for an exception that it handles ([ValueError],
    [httpx.HTTPStatusError], [httpx.NetworkError]), with the status -1,
    nothing on the standard output and a message on the standard error; or,
    for any other exception of the listing, uncaught, with the status 1,
    nothing on the standard output and the traceback on the standard
    error.  So the output is empty exactly when the command fails. *)
Theorem ls_remote_piped (fuel : nat) (data_source : DataSource RepoInfo)
    (pdk_root pdk_family : string) (s s1 : Session) (o : Outcome) :
  ls_remote false fuel data_source pdk_root pdk_family s = Some (s1, o) ->
  (status o = 0%Z /\ stderr o = "" /\ stdout o <> ""
   /\ exists vs,
       listing fuel data_source pdk_family s = Some (s1, Ok vs)
       /\ stdout o = print_names vs)
  \/ (status o = (-1)%Z /\ stdout o = "" /\ stderr o <> ""
      /\ exists e, listing fuel data_source pdk_family s
                   = Some (s1, Raise e)
                   /\ handled_by_ls_remote e = true)
  \/ (status o = 1%Z /\ stdout o = ""
      /\ exists e, listing fuel data_source pdk_family s
                   = Some (s1, Raise e)
                   /\ handled_by_ls_remote e = false
                   /\ stderr o = traceback e).
Proof.
  unfold list_remote_cmd.
  destruct (listing fuel data_source pdk_family s)
    as [[s' [vs|[msg|code| |msg|cls msg]]]|] eqn:L; intros [= <- <-]; cbn.
  - left. repeat split.
    + intros E. apply print_names_empty in E. subst vs.
      destruct data_source as [self]. cbn in L.
      apply available_inv in L. destruct L as (rs & _ & Hp).
      apply process_Ok in Hp. destruct Hp as (_ & _ & _ & Hne & _).
      now apply Hne.
    + now exists vs.
  - right. left. repeat split; [|eauto].
    rewrite <- (append_empty_r nl). apply append_nl_nonempty.
  - right. left. repeat split; [discriminate | eauto].
  - right. left. repeat split; [discriminate | eauto].
  - right. right. repeat split. eauto.
  - right. right. repeat split. eauto.
Qed.

(** X11.  A release that is not a draft and whose tag has no ["-"] breaks
    [ls-remote] for every family: when the releases before it are drafts or
    well formed, the command prints the message of the failed unpacking on
    the standard error and exits with the status -1, the same way as it
    reports that a family has no versions. *)
Theorem ls_remote_malformed_tag (fuel : nat)
    (self : GitHubReleasesDataSource RepoInfo)
    (pdk_root pdk_family : string) (s s1 : Session)
    (rs1 rs2 : list Release.t) (r : Release.t) :
  fetch_releases api_releases fuel self s
  = Some (s1, Ok (rs1 ++ r :: rs2)%list) ->
  (forall r', In r' rs1 ->
              Release.draft r' = true \/ well_formed date_from_iso8601 r') ->
  Release.draft r = false ->
  Py.contains "-" (Release.tag_name r) = false ->
  ls_remote false fuel (GitHubReleases self) pdk_root pdk_family s
  = Some (s1, mkOutcome ""
                ("not enough values to unpack (expected 2, got 1)" ++ nl)
                (-1)).
Proof.
  intros Hf H1 Hd Ht. unfold list_remote_cmd. cbn.
  rewrite (available_fetched _ _ _ _ _ _ self s s1 _ fuel pdk_family Hf).
  unfold process_releases.
  rewrite (collect_raise date_from_iso8601 pdk_family rs1 rs2 r
             (ValueError "not enough values to unpack (expected 2, got 1)")).
  - reflexivity.
  - intros r' Hr'. destruct (H1 r' Hr') as [Hd'|Hw].
    + exists None. now apply visit_draft.
    + now apply visit_well_formed.
  - now apply visit_malformed.
Qed.

End ListRemoteFacts.

Lemma ls_remote_piped_witness :
  list_remote_cmd GitHub.id Sim.api_releases Common.date_from_iso8601
    Common.Version_lt (fun _ _ _ => "") (fun x => x) (fun _ => "")
    (fun _ => "Traceback")
    false 0 (GitHubReleases Sim.volare) "/pdk" "sky130"
    (Sim.start [MoreExamples.no_description])
  = Some (Sim.mkSession [MoreExamples.no_description] [first_page],
          mkOutcome "" "Traceback" 1)
  /\ ((status (mkOutcome "" "Traceback" 1) = 0%Z
       /\ stderr (mkOutcome "" "Traceback" 1) = ""
       /\ stdout (mkOutcome "" "Traceback" 1) <> ""
       /\ exists vs,
           DataSource_get_available_versions GitHub.id Sim.api_releases
             Common.date_from_iso8601 Common.Version_lt 0
             (GitHubReleases Sim.volare) "sky130"
             (Sim.start [MoreExamples.no_description])
           = Some (Sim.mkSession [MoreExamples.no_description] [first_page],
                   Ok vs)
           /\ stdout (mkOutcome "" "Traceback" 1) = print_names vs)
      \/ (status (mkOutcome "" "Traceback" 1) = (-1)%Z
          /\ stdout (mkOutcome "" "Traceback" 1) = ""
          /\ stderr (mkOutcome "" "Traceback" 1) <> ""
          /\ exists e,
              DataSource_get_available_versions GitHub.id Sim.api_releases
                Common.date_from_iso8601 Common.Version_lt 0
                (GitHubReleases Sim.volare) "sky130"
                (Sim.start [MoreExamples.no_description])
              = Some (Sim.mkSession [MoreExamples.no_description]
                        [first_page], Raise e)
              /\ handled_by_ls_remote e = true)
      \/ (status (mkOutcome "" "Traceback" 1) = 1%Z
          /\ stdout (mkOutcome "" "Traceback" 1) = ""
          /\ exists e,
              DataSource_get_available_versions GitHub.id Sim.api_releases
                Common.date_from_iso8601 Common.Version_lt 0
                (GitHubReleases Sim.volare) "sky130"
                (Sim.start [MoreExamples.no_description])
              = Some (Sim.mkSession [MoreExamples.no_description]
                        [first_page], Raise e)
              /\ handled_by_ls_remote e = false
              /\ stderr (mkOutcome "" "Traceback" 1)
                 = (fun _ : exn => "Traceback") e)).
Proof.
  split; [reflexivity|].
  exact (ls_remote_piped GitHub.RepoInfo GitHub.id Sim.Session
           Sim.api_releases Common.date_from_iso8601 Common.Version_lt
           (fun _ _ _ => "") (fun x => x) (fun _ => "")
           (fun _ => "Traceback")
           0 (GitHubReleases Sim.volare) "/pdk" "sky130"
           (Sim.start [MoreExamples.no_description])
           (Sim.mkSession [MoreExamples.no_description] [first_page])
           (mkOutcome "" "Traceback" 1)
           eq_refl).
Defined.

(** The examples of X10: three versions listed, newest first; and a
    release without a description, whose body the loop cannot search. *)
Example ls_remote_piped_example :
  list_remote_cmd GitHub.id Sim.api_releases Common.date_from_iso8601
    Common.Version_lt (fun _ _ _ => "") (fun x => x) (fun _ => "")
    (fun _ => "Traceback")
    false 0 (GitHubReleases Sim.volare) "/pdk" "sky130"
    (Sim.start Examples.three_dates)
  = Some (Sim.mkSession Examples.three_dates [first_page],
          mkOutcome ("bbb" ++ nl ++ "ccc" ++ nl ++ "aaa" ++ nl) "" 0)
  /\ Sim.get_available_versions 0 "sky130" [MoreExamples.no_description]
     = Some (Sim.mkSession [MoreExamples.no_description] [first_page],
             Raise (TypeError
                      "expected string or bytes-like object, got 'NoneType'")).
Proof. split; reflexivity. Qed.

Lemma ls_remote_malformed_tag_witness :
  list_remote_cmd GitHub.id Sim.api_releases Common.date_from_iso8601
    Common.Version_lt (fun _ _ _ => "") (fun x => x) (fun _ => "")
    (fun _ => "")
    false 0 (GitHubReleases Sim.volare) "/pdk" "gf180mcu"
    (Sim.start Examples.with_malformed_tag)
  = Some (Sim.mkSession Examples.with_malformed_tag [first_page],
          mkOutcome ""
            ("not enough values to unpack (expected 2, got 1)" ++ nl) (-1)).
Proof.
  refine (ls_remote_malformed_tag GitHub.RepoInfo GitHub.id Sim.Session
            Sim.api_releases Common.date_from_iso8601 Common.Version_lt
            (fun _ _ _ => "") (fun x => x) (fun _ => "")
    (fun _ => "")
            0 Sim.volare "/pdk" "gf180mcu"
            (Sim.start Examples.with_malformed_tag)
            (Sim.mkSession Examples.with_malformed_tag [first_page])
            [Examples.release "sky130-ef0123" "2023-06-15T00:00:00Z" ""] []
            (Examples.release "nightly" "2023-06-16T00:00:00Z" "")
            eq_refl _ eq_refl eq_refl).
  intros r' [<-|[]]. right.
  split; [reflexivity | split; eexists; reflexivity].
Defined.

(** ** The command [prune] *)

Section PruneFacts.
Variable FS : Type.
Variable is_current : FS -> Version.t -> bool.
Variable uninstall : FS -> Version.t -> FS * Result unit.
Variable Version_str : Version.t -> string.
Variable str_of_exn : exn -> string.

(** Uninstalling a version does not change which version is current. *)
Hypothesis uninstall_keeps_current :
  forall fs v fs' r v',
    uninstall fs v = (fs', r) -> is_current fs' v' = is_current fs v'.

Lemma prune_loop_traced (pdk_versions : list Version.t) :
  forall (fs : FS) (log : list Version.t) (o : Outcome),
  exists fs' o',
    prune_loop is_current uninstall Version_str str_of_exn pdk_versions fs o
    = (fs', o')
    /\ prune_loop (traced_is_current is_current) (traced_uninstall uninstall)
         Version_str str_of_exn pdk_versions (fs, log) o
       = ((fs', (log ++ filter (fun v => negb (is_current fs v))
                          pdk_versions)%list), o')
    /\ (forall v, is_current fs' v = is_current fs v)
    /\ status o' = status o.
Proof.
  induction pdk_versions as [|v vs IH]; intros fs log o.
  - exists fs, o. simpl. now rewrite app_nil_r.
  - cbn [prune_loop filter]. unfold traced_is_current at 1.
    cbn [fst]. destruct (is_current fs v) eqn:Hc; cbn [negb].
    + apply IH.
    + unfold traced_uninstall at 1. cbn [fst snd].
      destruct (uninstall fs v) as [fs1 r] eqn:Hu.
      assert (Hsame : forall v', is_current fs1 v' = is_current fs v')
        by (intros v'; now apply (uninstall_keeps_current fs v fs1 r)).
      assert (Hfilter :
                filter (fun v => negb (is_current fs1 v)) vs
                = filter (fun v => negb (is_current fs v)) vs)
        by (apply filter_ext; intros a; now rewrite Hsame).
      destruct r as [u|e].
      * destruct (IH fs1 (log ++ [v])%list
                    (mkOutcome
                       (stdout o ++ "Deleted " ++ Version_str v ++ "." ++ nl)
                       (stderr o) (status o)))
          as (fs' & o' & E1 & E2 & Hcur & Hst).
        exists fs', o'. rewrite E1, E2, Hfilter, <- app_assoc.
        repeat split; [|exact Hst]. intros v'. now rewrite Hcur.
      * destruct (IH fs1 (log ++ [v])%list
                    (mkOutcome (stdout o)
                       (stderr o ++ "Failed to delete " ++ Version_str v
                          ++ ": " ++ str_of_exn e ++ nl)
                       (status o)))
          as (fs' & o' & E1 & E2 & Hcur & Hst).
        exists fs', o'. rewrite E1, E2, Hfilter, <- app_assoc.
        repeat split; [|exact Hst]. intros v'. now rewrite Hcur.
Qed.

(** X12.  [prune_cmd] calls [uninstall] on exactly the installed versions
    that are not the current one, each once and in the order of the list,
    also after an [uninstall] has failed; it never calls it on the current
    version, which is still the current one afterwards; and it ends
    normally (status 0) whatever failed. *)
Theorem prune_spares_current (pdk_versions : list Version.t) (fs : FS) :
  exists fs' o',
    prune_cmd is_current uninstall Version_str str_of_exn pdk_versions fs
    = (fs', o')
    /\ prune_cmd (traced_is_current is_current) (traced_uninstall uninstall)
         Version_str str_of_exn pdk_versions (fs, [])
       = ((fs', filter (fun v => negb (is_current fs v)) pdk_versions), o')
    /\ (forall v, is_current fs' v = is_current fs v)
    /\ status o' = 0%Z.
Proof.
  unfold prune_cmd.
  destruct (prune_loop_traced pdk_versions fs [] (mkOutcome "" "" 0))
    as (fs' & o' & E1 & E2 & Hcur & Hst).
  exists fs', o'. now rewrite E1, E2.
Qed.

End PruneFacts.

Lemma toy_uninstall_keeps_current (fs : ToyFS.t) (v : Version.t)
    (fs' : ToyFS.t) (r : Result unit) (v' : Version.t) :
  ToyFS.uninstall fs v = (fs', r) ->
  ToyFS.is_current fs' v' = ToyFS.is_current fs v'.
Proof.
  unfold ToyFS.uninstall, ToyFS.is_current.
  destruct (existsb _ _); intros [= <- _]; reflexivity.
Qed.

Lemma prune_spares_current_witness :
  exists fs' o',
    prune_cmd ToyFS.is_current ToyFS.uninstall Version.name
      (str_exn (fun _ => "")) MoreExamples.installed MoreExamples.toy
    = (fs', o')
    /\ prune_cmd (traced_is_current ToyFS.is_current)
         (traced_uninstall ToyFS.uninstall) Version.name
         (str_exn (fun _ => "")) MoreExamples.installed
         (MoreExamples.toy, [])
       = ((fs', filter (fun v => negb (ToyFS.is_current MoreExamples.toy v))
                  MoreExamples.installed), o')
    /\ (forall v, ToyFS.is_current fs' v
                  = ToyFS.is_current MoreExamples.toy v)
    /\ status o' = 0%Z.
Proof.
  exact (prune_spares_current ToyFS.t ToyFS.is_current ToyFS.uninstall
           Version.name (str_exn (fun _ => ""))
           toy_uninstall_keeps_current
           MoreExamples.installed MoreExamples.toy).
Defined.

(** The example of X12: of the listed versions [aaa], [bbb] and [ccc],
    [ccc] is enabled and [bbb] is not installed; [aaa] is deleted, the
    failure for [bbb] is reported, and [ccc] is left alone. *)
Example prune_example :
  prune_cmd (traced_is_current ToyFS.is_current)
    (traced_uninstall ToyFS.uninstall) Version.name (str_exn (fun _ => ""))
    MoreExamples.installed (MoreExamples.toy, [])
  = ((ToyFS.mk ["ccc"] "ccc", [Examples.aaa; Examples.bbb]),
     mkOutcome ("Deleted aaa." ++ nl)
       ("Failed to delete bbb: Version not installed." ++ nl) 0).
Proof. reflexivity. Qed.

(** ** The names of the listed versions *)

Lemma Forall2_In_r {A B : Type} (R : A -> B -> Prop) (l : list A)
    (l' : list B) (y : B) :
  Forall2 R l l' -> In y l' -> exists x, In x l /\ R x y.
Proof.
  induction 1 as [|x y' l l' Hxy HF IH]; intros Hy; [contradiction|].
  destruct Hy as [->|Hy].
  - exists x. split; [now left | exact Hxy].
  - destruct (IH Hy) as (x' & Hx' & HR). exists x'. split; [now right | exact HR].
Qed.

Lemma built_names_NoDup (date_from_iso8601 : string -> Result datetime.t)
    (pdk : string) (sel : list Release.t) (built : list Version.t) :
  Forall2 (built_from date_from_iso8601 pdk) sel built ->
  NoDup (map Release.tag_name sel) ->
  NoDup (map Version.name built).
Proof.
  induction 1 as [|r v sel built Hb HF IH]; simpl; intros Hnd;
    [constructor|].
  inversion Hnd as [|x xs Hnotin Hnd']; subst.
  constructor; [|now apply IH].
  intros Hin. apply Hnotin. apply in_map_iff in Hin.
  destruct Hin as (v' & Hname & Hv').
  destruct (Forall2_In_r _ _ _ _ HF Hv') as (r' & Hr' & Hb').
  apply in_map_iff. exists r'. split; [|exact Hr'].
  destruct Hb as (_ & [Ht _] & _). destruct Hb' as (_ & [Ht' _] & _).
  now rewrite Ht, Ht', Hname.
Qed.

(** X13.  The listing does not deduplicate, and does not need to when the
    tags are unique: when the selected releases of the feed have different
    tags, the versions of the returned list have different names. *)
Theorem listed_names_distinct (RepoInfo : Type)
    (RepoInfo_id : RepoInfo -> string) (Session : Type)
    (api_releases :
       Session -> RepoInfo -> Params -> Session * Result (list Release.t))
    (date_from_iso8601 : string -> Result datetime.t)
    (Version_lt : Version.t -> Version.t -> bool)
    (self : GitHubReleasesDataSource RepoInfo) (pdk : string)
    (s s1 : Session) (fuel : nat) (rs : list Release.t)
    (vs : list Version.t) :
  fetch_releases api_releases fuel self s = Some (s1, Ok rs) ->
  get_available_versions RepoInfo_id api_releases date_from_iso8601
    Version_lt fuel self pdk s = Some (s1, Ok vs) ->
  NoDup (map Release.tag_name (filter (selected pdk) rs)) ->
  NoDup (map Version.name vs)
  /\ List.length vs = List.length (filter (selected pdk) rs).
Proof.
  intros Hf H Hnd.
  rewrite (available_fetched _ _ _ _ _ _ self s s1 rs fuel pdk Hf) in H.
  injection H as H. apply process_Ok in H.
  destruct H as (built & Hc & _ & _ & ->).
  apply collect_Forall2 in Hc. split.
  - eapply Permutation_NoDup;
      [apply Permutation_map, Permutation_sym, sort_reverse_perm|].
    now apply (built_names_NoDup date_from_iso8601 pdk _ _ Hc).
  - rewrite sort_reverse_length. symmetry.
    now apply (Forall2_length Hc).
Qed.

Lemma listed_names_distinct_witness :
  NoDup (map Version.name [Examples.bbb; Examples.ccc; Examples.aaa])
  /\ List.length [Examples.bbb; Examples.ccc; Examples.aaa]
     = List.length (filter (selected "sky130") Examples.three_dates).
Proof.
  refine (listed_names_distinct GitHub.RepoInfo GitHub.id Sim.Session
            Sim.api_releases Common.date_from_iso8601 Common.Version_lt
            Sim.volare "sky130" (Sim.start Examples.three_dates)
            (Sim.mkSession Examples.three_dates [first_page]) 0
            Examples.three_dates
            [Examples.bbb; Examples.ccc; Examples.aaa]
            eq_refl eq_refl _).
  simpl. repeat constructor; simpl; intuition discriminate.
Defined.

(** Without unique tags there are duplicates in the result: a release
    that the feed has twice is listed twice. *)
Example listing_keeps_duplicates :
  Sim.get_available_versions 0 "sky130"
    [Examples.release "sky130-ef0123" "2023-06-15T00:00:00Z" "";
     Examples.release "sky130-ef0123" "2023-06-15T00:00:00Z" ""]
  = Some (Sim.mkSession
            [Examples.release "sky130-ef0123" "2023-06-15T00:00:00Z" "";
             Examples.release "sky130-ef0123" "2023-06-15T00:00:00Z" ""]
            [first_page],
          Ok [Examples.ef0123; Examples.ef0123]).
Proof. reflexivity. Qed.

(* ===================================================================== *)
(** * Filtering by family, the not-found error and the commit date *)

Section SelectedClaims.
Variable RepoInfo : Type.
Variable RepoInfo_id : RepoInfo -> string.
Variable Session : Type.
Variable api_releases :
  Session -> RepoInfo -> Params -> Session * Result (list Release.t).
Variable date_from_iso8601 : string -> Result datetime.t.
Variable Version_lt : Version.t -> Version.t -> bool.

Local Abbreviation fetch := (fetch_releases api_releases).
Local Abbreviation available :=
  (get_available_versions RepoInfo_id api_releases date_from_iso8601
     Version_lt).

Lemma dates_parse_well_formed (pdk : string) (r : Release.t) :
  selected pdk r = true -> dates_parse date_from_iso8601 r ->
  well_formed date_from_iso8601 r.
Proof.
  intros Hs ([d Hd] & text & Hb & Hm).
  apply selected_spec in Hs. destruct Hs as (_ & hash & Ht & _).
  split; [|split].
  - rewrite Ht, contains_append. simpl. apply orb_true_r.
  - now exists d.
  - rewrite Hb. destruct Hm as [Hm|(g & d' & Hg & Hd')].
    + exists None. now apply extract_commit_date_None.
    + exists (Some d'). now apply (extract_commit_date_Some _ text g).
Qed.

(** The loop in terms of the feed: when the tags of the releases that are
    not drafts have a ["-"] and the dates of the selected releases are
    accepted, the loop ends without an error, with one version for each
    selected release, in feed order. *)
Lemma collect_of_selected (pdk : string) (rs : list Release.t) :
  (forall r, In r rs -> Release.draft r = false ->
             Py.contains "-" (Release.tag_name r) = true) ->
  (forall r, In r rs -> selected pdk r = true ->
             dates_parse date_from_iso8601 r) ->
  exists built,
    collect_versions date_from_iso8601 pdk rs [] = Ok built
    /\ Forall2 (built_from date_from_iso8601 pdk)
               (filter (selected pdk) rs) built.
Proof.
  intros Htags Hdates.
  destruct (collect_total date_from_iso8601 pdk (filter (selected pdk) rs))
    as [built Hb].
  { intros r Hr. apply filter_In in Hr. destruct Hr as [Hr Hs].
    apply visit_well_formed, (dates_parse_well_formed pdk); auto. }
  rewrite <- (collect_selected date_from_iso8601 pdk rs Htags) in Hb.
  exists built. split; [exact Hb | now apply collect_Forall2].
Qed.


(** C2, as amended.  When the first page is not full (so that the
    pagination ends), the tags of the releases that are not drafts have a
    ["-"], and the dates of the selected releases are accepted, the
    releases that [get_available_versions pdk] turns into versions are
    exactly those that are not drafts and whose tag, divided at its last
    ["-"], has the family [pdk]: the call returns, whatever the fuel, one
    version per such release, built from it, sorted; and it raises the
    not-found error when there is none.  Nothing is asked of the dates and
    bodies of the releases of other families. *)
Theorem family_filtering (self : GitHubReleasesDataSource RepoInfo)
    (pdk : string) (s s1 : Session) (rs : list Release.t) :
  api_releases s (repo self) {| page := 1; per_page := 100 |} = (s1, Ok rs) ->
  List.length rs <> 100 ->
  (forall r, In r rs -> Release.draft r = false ->
             Py.contains "-" (Release.tag_name r) = true) ->
  (forall r, In r rs -> selected pdk r = true ->
             dates_parse date_from_iso8601 r) ->
  (forall r, selected pdk r = true <->
             Release.draft r = false
             /\ exists hash, last_hyphen_split (Release.tag_name r) pdk hash)
  /\ exists vs,
      Forall2 (built_from date_from_iso8601 pdk)
              (filter (selected pdk) rs) vs
      /\ Permutation (sort_reverse Version_lt vs) vs
      /\ forall fuel,
          available fuel self pdk s
          = Some (s1, match vs with
                      | [] => Raise (ValueError
                                       (not_found_message RepoInfo_id pdk self))
                      | _ :: _ => Ok (sort_reverse Version_lt vs)
                      end).
Proof.
  intros Hapi Hlen Htags Hdates. split; [apply selected_spec|].
  destruct (collect_of_selected pdk rs Htags Hdates) as (vs & Hc & HF).
  exists vs. split; [exact HF|]. split; [apply sort_reverse_perm|].
  intros fuel.
  rewrite (available_fetched _ _ _ _ _ _ self s s1 rs fuel pdk)
    by (now apply fetch_short).
  unfold process_releases. rewrite Hc. simpl.
  destruct vs as [|v vs]; [reflexivity|].
  now rewrite finish_nonempty by discriminate.
Qed.



End SelectedClaims.

Lemma family_filtering_witness :
  exists vs,
    Forall2 (built_from Common.date_from_iso8601 "sky130")
            [Examples.release "sky130-ef0123" "2023-06-15T00:00:00Z" ""] vs
    /\ Permutation (sort_reverse Common.Version_lt vs) vs
    /\ forall fuel,
        Sim.get_available_versions fuel "sky130"
          MoreExamples.families_with_garbage
        = Some (Sim.mkSession MoreExamples.families_with_garbage
                  [first_page],
                match vs with
                | [] => Raise (ValueError
                                 (not_found_message GitHub.id "sky130"
                                    Sim.volare))
                | _ :: _ => Ok (sort_reverse Common.Version_lt vs)
                end).
Proof.
  apply (family_filtering GitHub.RepoInfo GitHub.id Sim.Session
           Sim.api_releases Common.date_from_iso8601 Common.Version_lt
           Sim.volare "sky130"
           (Sim.start MoreExamples.families_with_garbage)
           (Sim.mkSession MoreExamples.families_with_garbage [first_page])
           MoreExamples.families_with_garbage).
  - reflexivity.
  - simpl. lia.
  - intros r [<-|[<-|[<-|[<-|[]]]]] _; reflexivity.
  - intros r [<-|[<-|[<-|[<-|[]]]]] Hs; try discriminate Hs.
    split; [eexists; reflexivity|].
    eexists. split; [reflexivity | left; reflexivity].
Defined.

(** C2, as the specification words it, fails: in the feed
    [Examples.with_malformed_tag] the release tagged ["sky130-ef0123"] is
    not a draft and has the family ["sky130"], and no version is returned
    for it, because the call raises on the tag of another release. *)
Lemma matching_release_not_listed :
  In (Examples.release "sky130-ef0123" "2023-06-15T00:00:00Z" "")
     Examples.with_malformed_tag
  /\ Release.draft
       (Examples.release "sky130-ef0123" "2023-06-15T00:00:00Z" "") = false
  /\ last_hyphen_split "sky130-ef0123" "sky130" "ef0123"
  /\ selected "sky130"
       (Examples.release "sky130-ef0123" "2023-06-15T00:00:00Z" "") = true
  /\ forall fuel,
      Sim.get_available_versions fuel "sky130" Examples.with_malformed_tag
      = Some (Sim.mkSession Examples.with_malformed_tag [first_page],
              Raise (ValueError
                       "not enough values to unpack (expected 2, got 1)")).
Proof.
  split; [now left|]. split; [reflexivity|].
  split; [split; reflexivity|]. split; [reflexivity|].
  intros fuel. rewrite sim_available_short by (simpl; lia). reflexivity.
Qed.


(** The example of C5: no release of the family ["gf180mcu"], and the
    not-found error with the family and the repository in its message. *)
Example not_found_example :
  Sim.get_available_versions 0 "gf180mcu" Examples.families
  = Some (Sim.mkSession Examples.families [first_page],
          Raise (ValueError
                   "No versions found for 'gf180mcu' on github.com/efabless/volare")).
Proof. reflexivity. Qed.



(** The examples of C7: a body with ["released on 2022-05-01T12:00:00Z"]
    gives that commit date, a body without the phrase gives none, and a
    release without a description makes the call raise [TypeError]. *)
Example commit_date_extraction_example :
  commit_rx_search "open_pdks: released on 2022-05-01T12:00:00Z from master"
  = Some "2022-05-01T12:00:00Z"
  /\ Sim.get_available_versions 0 "sky130" [Examples.annotated]
     = Some (Sim.mkSession [Examples.annotated] [first_page],
             Ok [Examples.ef0123_annotated])
  /\ Sim.get_available_versions 0 "sky130" [Examples.not_annotated]
     = Some (Sim.mkSession [Examples.not_annotated] [first_page],
             Ok [Examples.ef0123])
  /\ Sim.get_available_versions 0 "sky130" [MoreExamples.no_description]
     = Some (Sim.mkSession [MoreExamples.no_description] [first_page],
             Raise (TypeError
                      "expected string or bytes-like object, got 'NoneType'")).
Proof. repeat split; reflexivity. Qed.

